(** * skipi: functions sampled on discretised domains

    A shallow embedding of [skipi/function.py] and [skipi/parameter.py].

    Python floats and numpy [float64] values are IEEE binary64 numbers and are
    modelled by Rocq's primitive floats; complex numbers are pairs of floats.
    Exceptions are modelled by an error monad, the module-level global
    [FUNCTION_INTERPOLATION_TYPE] by explicit state passing, and the closure
    cells of [ParametrizedFunction.__init__] by an explicit store. *)

From Stdlib Require Import ZArith List String Bool Lia Floats Uint63.
Import ListNotations.

Set Warnings "-inexact-float,-register-all".
Set Implicit Arguments.

(** ** Exceptions and the error monad *)

Inductive exn : Type :=
| IndexError
| TypeError
| ValueError
| AttributeError
| RuntimeError (msg : string)
| RuntimeWarning (msg : string)
| OtherError (name : string).

Inductive result (A : Type) : Type :=
| Ok (a : A)
| Raise (e : exn).

Arguments Ok {A} a.
Arguments Raise {A} e.

Definition bind {A B : Type} (m : result A) (k : A -> result B) : result B :=
  match m with
  | Ok a => k a
  | Raise e => Raise e
  end.

Declare Scope py_scope.
Delimit Scope py_scope with py.
Notation "'let*' x ':=' m 'in' k" := (bind m (fun x => k))
  (at level 10, x name, m at level 200, k at level 200) : py_scope.
Open Scope py_scope.

(** [[g(x) for x in xs]] : the calls are made left to right and the first
    exception aborts the comprehension. *)
Fixpoint map_result {A B : Type} (g : A -> result B) (xs : list A) : result (list B) :=
  match xs with
  | [] => Ok []
  | x :: rest =>
      let* y := g x in
      let* ys := map_result g rest in
      Ok (y :: ys)
  end.

(** ** Numbers *)

Record complex : Type := Complex { re : float; im : float }.

Definition of_real (x : float) : complex := Complex x 0%float.

Definition cadd (a b : complex) : complex :=
  Complex (re a + re b)%float (im a + im b)%float.

Definition cmul (a b : complex) : complex :=
  Complex (re a * re b - im a * im b)%float (re a * im b + im a * re b)%float.

(** The literal [1j]. *)
Definition imag_unit : complex := Complex 0%float 1%float.

Definition float_of_nat (n : nat) : float :=
  PrimFloat.of_uint63 (Uint63.of_Z (Z.of_nat n)).

(** ** Python values *)

(** Scalars.  [SFloat] stands for a Python [float] or a numpy [float64]
    (a subclass of [float]), [SComplex] for [complex] or [complex128],
    [SInt] for a Python [int]. *)
Inductive scalar : Type :=
| SNone
| SBool (b : bool)
| SInt (z : Z)
| SFloat (x : float)
| SComplex (c : complex)
| SStr (s : string).

(** What a relation is applied to and what it returns: a scalar, a
    one-dimensional real array (also a Python list or range of reals), or a
    one-dimensional complex array. *)
Inductive data : Type :=
| DScalar (s : scalar)
| DArray (a : list float)
| DCArray (a : list complex).

Definition relation : Type := data -> result data.

(** Objects passed to constructors and operators.  [PFactory] is a callable
    taking a parameter vector.  [PCellLambda c] is the closure
    [lambda x: domain] created in [ParametrizedFunction.__init__]; its free
    variable [domain] lives in the closure cell [c], which is read when the
    closure is called. *)
Inductive pyobj : Type :=
| PScalar (s : scalar)
| PGrid (g : list float)
| PCallable (f : relation)
| PFactory (fac : list float -> result pyobj)
| PFunction (dom : list float) (f : relation)
| PCellLambda (c : nat).

(** The builtin [callable]. *)
Definition callable (o : pyobj) : bool :=
  match o with
  | PScalar _ | PGrid _ => false
  | PCallable _ | PFactory _ | PFunction _ _ | PCellLambda _ => true
  end.

(** [isinstance(o, Function)]. *)
Definition is_Function (o : pyobj) : bool :=
  match o with
  | PFunction _ _ => true
  | _ => false
  end.

(** [o is None]. *)
Definition is_None (o : pyobj) : bool :=
  match o with
  | PScalar SNone => true
  | _ => false
  end.

(** The builtin [any]: it iterates over its argument, and a [bool], a number
    or [None] is not iterable. *)
Definition py_any (d : data) : result bool :=
  match d with
  | DScalar (SStr s) => Ok (negb (String.eqb s EmptyString))
  | DScalar _ => Raise TypeError
  | DArray a => Ok (existsb (fun x => negb (PrimFloat.eqb x 0%float)) a)
  | DCArray a =>
      Ok (existsb (fun c => negb (PrimFloat.eqb (re c) 0%float && PrimFloat.eqb (im c) 0%float)) a)
  end.

(** ** The parts of numpy used on domains *)

(** [a[i]] on a one-dimensional array, for a non-negative index. *)
Definition np_index {A : Type} (a : list A) (i : nat) : result A :=
  match nth_error a i with
  | Some x => Ok x
  | None => Raise IndexError
  end.

(** [numpy.diff] on a one-dimensional array: [a[1:] - a[:-1]]. *)
Fixpoint diff1 (a : list float) : list float :=
  match a with
  | x :: ((y :: _) as rest) => (y - x)%float :: diff1 rest
  | _ => []
  end.

(** [numpy.diff(o)]: [asanyarray] turns anything that is not a sequence into
    a zero-dimensional array, which [diff] refuses. *)
Definition np_diff (o : pyobj) : result (list float) :=
  match o with
  | PGrid g => Ok (diff1 g)
  | _ => Raise ValueError
  end.

Definition rtol : float := 1e-5%float.
Definition atol : float := 1e-8%float.

(** One element of [numpy.isclose(x, y)] with the default tolerances. *)
Definition isclose (x y : float) : bool :=
  if PrimFloat.is_finite x && PrimFloat.is_finite y
  then PrimFloat.leb (abs (x - y)) (atol + rtol * abs y)
  else PrimFloat.eqb x y.

(** [numpy.zeros(n)]. *)
Definition np_zeros (n : nat) : list float := repeat 0%float n.

(** [numpy.all] of an array of booleans. *)
Definition np_all (bs : list bool) : bool := forallb (fun b => b) bs.

(** [numpy.linspace(start, stop, num)] with [endpoint=True]. *)
Definition np_linspace (start stop : float) (num : nat) : list float :=
  let div := (num - 1)%nat in
  let delta := (stop - start)%float in
  let y := map float_of_nat (seq 0 num) in
  let y :=
    if (0 <? div)%nat then
      let step := (delta / float_of_nat div)%float in
      if PrimFloat.eqb step 0%float
      then map (fun v => (v / float_of_nat div * delta)%float) y
      else map (fun v => (v * step)%float) y
    else map (fun v => (v * delta)%float) y in
  let y := map (fun v => (v + start)%float) y in
  if (1 <? num)%nat then removelast y ++ [stop] else y.

(** ** External collaborators

    The behaviour of numpy's arithmetic on arbitrary operands, of scipy's
    interpolation kernels and quadrature, and of [skipi.util.vslice] is not
    part of the two modelled files.  It is collected in one interface; every
    definition below is parametric in it. *)

Inductive binop : Type := Add | Sub | Mul | TrueDiv | Pow.

Class Backend : Type := {
  (** [a + b], [a - b], [a * b], [a / b], [a ** b] on relation values *)
  py_binop : binop -> data -> data -> result data;
  (** [(a.real * b.real) < 0] used as a condition, for operands that are not
      both floating point or both integers *)
  sign_test_other : data -> data -> result bool;
  (** calling, as a relation, a callable that is not one *)
  foreign_relation : pyobj -> relation;
  (** calling a relation on a parameter vector where a factory is expected *)
  call_with_parameters : relation -> list float -> result pyobj;
  (** [numpy.array(outputs)] when some output is not a float or a complex *)
  np_array_other : list data -> result (list complex);
  (** [numpy.argsort] *)
  np_argsort : list float -> list nat;
  (** the checks of [interp1d.__init__] on the kind and on the sorted
      abscissas and ordinates: the exception raised, if any *)
  interp1d_reject : string -> list float -> list float -> option exn;
  (** the exception of [interp1d.__init__] for zero-dimensional ordinates *)
  interp1d_scalar_y : scalar -> exn;
  (** the interpolation kernel of a fitted interpolant (its [_call]) *)
  interp1d_kernel : string -> list float -> list float -> float -> float;
  (** calling a fitted interpolant on something that is not a float or a
      real array *)
  interp1d_call_other : data -> result data;
  (** [skipi.util.vslice(domain, (x0, x1), dstart=.., dstop=..)] *)
  vslice : list float -> option float * option float -> Z -> Z -> result (list float);
  (** [scipy.integrate.trapz(y, dx=dx)] *)
  trapz : data -> scalar -> result data
}.

(** ** [scipy.interpolate.interp1d]: fill values and bounds

    Only what [to_function] relies on is spelled out: the abscissas are sorted,
    and on evaluation the points below the first and above the last abscissa
    are overwritten by the fill values unless [bounds_error] is set. *)

Record interp1d : Type := Interp1d {
  ip_kind : string;
  ip_x : list float;
  ip_y : list float;
  ip_fill_below : float;
  ip_fill_above : float;
  ip_bounds_error : bool
}.

(** [fill_value] is either a pair (below, above) or one value for both. *)
Inductive fill_value : Type :=
| FillPair (below above : float)
| FillScalar (v : float).

Definition fill_below (fv : fill_value) : float :=
  match fv with FillPair b _ => b | FillScalar v => v end.

Definition fill_above (fv : fill_value) : float :=
  match fv with FillPair _ a => a | FillScalar v => v end.

Definition sorted_abscissas {B : Backend} (x : list float) : result (list float) :=
  map_result (np_index x) (np_argsort x).

Definition make_interp1d {B : Backend} (x y : list float) (fv : fill_value)
    (bounds_error : bool) (kind : string) : result interp1d :=
  let* xs := sorted_abscissas x in
  let* ys := map_result (np_index y) (np_argsort x) in
  match interp1d_reject kind xs ys with
  | Some e => Raise e
  | None =>
      match xs with
      | [] => Raise ValueError
      | _ => Ok (Interp1d kind xs ys (fill_below fv) (fill_above fv) bounds_error)
      end
  end.

Definition below_bounds (ip : interp1d) (x_new : float) : bool :=
  PrimFloat.ltb x_new (hd nan (ip_x ip)).

Definition above_bounds (ip : interp1d) (x_new : float) : bool :=
  PrimFloat.ltb (last (ip_x ip) nan) x_new.

(** One point of [interp1d.__call__]. *)
Definition interp1d_at {B : Backend} (ip : interp1d) (x_new : float) : result float :=
  let y_new := interp1d_kernel (ip_kind ip) (ip_x ip) (ip_y ip) x_new in
  if ip_bounds_error ip && (below_bounds ip x_new || above_bounds ip x_new)
  then Raise ValueError
  else
    let y_new := if below_bounds ip x_new then ip_fill_below ip else y_new in
    let y_new := if above_bounds ip x_new then ip_fill_above ip else y_new in
    Ok y_new.

(** ** Module-level state and functions of [skipi/function.py] *)

Record globals : Type := Globals { FUNCTION_INTERPOLATION_TYPE : string }.

(** The state right after the module is imported. *)
Definition initial_globals : globals := Globals "linear".

Definition set_interpolation_type (interpolation_type : string) (G : globals)
    : string * globals :=
  let previous_type := FUNCTION_INTERPOLATION_TYPE G in
  (previous_type, Globals interpolation_type).

(** The second argument of [to_function]: a callable or evaluated samples. *)
Inductive feval_arg : Type :=
| FCallable (f : relation)
| FSamples (d : data).

Definition sample_of (d : data) : option complex :=
  match d with
  | DScalar (SFloat x) => Some (of_real x)
  | DScalar (SComplex c) => Some c
  | _ => None
  end.

Fixpoint samples_of (ds : list data) : option (list complex) :=
  match ds with
  | [] => Some []
  | d :: rest =>
      match sample_of d, samples_of rest with
      | Some c, Some cs => Some (c :: cs)
      | _, _ => None
      end
  end.

(** [numpy.array([feval(x) for x in x_space])], after the calls were made. *)
Definition np_array_outputs {B : Backend} (ds : list data) : result (list complex) :=
  match samples_of ds with
  | Some cs => Ok cs
  | None => np_array_other ds
  end.

(** [lambda x: 0] *)
Definition zero_relation : relation := fun _ => Ok (DScalar (SInt 0)).

(** [real + 1j * imag] on the two interpolated parts of one point. *)
Definition recombine (r i : float) : complex :=
  cadd (of_real r) (cmul imag_unit (of_real i)).

(** [lambda x: real(x) + 1j * imag(x)] *)
Definition interpolated_relation {B : Backend} (real imag : interp1d) : relation :=
  fun x =>
    match x with
    | DScalar (SFloat v) =>
        let* r := interp1d_at real v in
        let* i := interp1d_at imag v in
        Ok (DScalar (SComplex (recombine r i)))
    | DArray vs =>
        let* rs := map_result (interp1d_at real) vs in
        let* js := map_result (interp1d_at imag) vs in
        Ok (DCArray (map (fun p => recombine (fst p) (snd p)) (combine rs js)))
    | other => interp1d_call_other other
    end.

Definition to_function {B : Backend} (G : globals) (x_space : list float)
    (feval : feval_arg) (interpolation : option string) (to_zero : bool)
    : result relation :=
  let interpolation :=
    match interpolation with
    | None => FUNCTION_INTERPOLATION_TYPE G
    | Some k => k
    end in
  let* feval := match feval with
                | FCallable f =>
                    let* outs := map_result (fun x => f (DScalar (SFloat x))) x_space in
                    let* cs := np_array_outputs outs in
                    Ok (DCArray cs)
                | FSamples d => Ok d
                end in
  if (List.length x_space =? 0)%nat then Ok zero_relation
  else
    let* feval := match feval with
                  | DArray a => Ok (map of_real a)
                  | DCArray a => Ok a
                  | DScalar s => Raise (interp1d_scalar_y s)
                  end in
    let fill := if to_zero then FillPair 0 0 else FillScalar nan in
    let* real := make_interp1d x_space (map re feval) fill false interpolation in
    let* imag := make_interp1d x_space (map im feval) fill false interpolation in
    Ok (interpolated_relation real imag).

(** ** [numpy.max], [numpy.min], [numpy.argmax], [numpy.argmin]

    On a one-dimensional real array: a not-a-number, once met, is the result;
    among equal values the first one is kept.  Other arguments are left to an
    interface of their own. *)

Class Reductions : Type := {
  np_max_other : data -> result data;
  np_min_other : data -> result data;
  np_argmax_other : data -> result nat;
  np_argmin_other : data -> result nat
}.

(** [maximum(a, b)] keeps [a] when [a >= b] or [a] is not a number. *)
Definition keep_max (a b : float) : bool := PrimFloat.leb b a || is_nan a.

(** [minimum(a, b)] keeps [a] when [a <= b] or [a] is not a number. *)
Definition keep_min (a b : float) : bool := PrimFloat.leb a b || is_nan a.

Fixpoint reduce (keep : float -> float -> bool) (acc : float) (ys : list float)
    : float :=
  match ys with
  | [] => acc
  | y :: rest => reduce keep (if keep acc y then acc else y) rest
  end.

(** The index scan of [argmax] and [argmin]: [best] is the value at index
    [bi], [i] the index of the head of [ys]; the scan stops at a
    not-a-number. *)
Fixpoint arg_scan (keep : float -> float -> bool) (best : float) (bi i : nat)
    (ys : list float) : nat :=
  match ys with
  | [] => bi
  | y :: rest =>
      if is_nan best then bi
      else if keep best y then arg_scan keep best bi (S i) rest
      else arg_scan keep y i (S i) rest
  end.

Definition np_reduce {R : Reductions} (keep : float -> float -> bool)
    (other : data -> result data) (d : data) : result data :=
  match d with
  | DArray [] => Raise ValueError
  | DArray (y :: ys) => Ok (DScalar (SFloat (reduce keep y ys)))
  | DScalar (SFloat x) => Ok (DScalar (SFloat x))
  | _ => other d
  end.

Definition np_arg {R : Reductions} (keep : float -> float -> bool)
    (other : data -> result nat) (d : data) : result nat :=
  match d with
  | DArray [] => Raise ValueError
  | DArray (y :: ys) => Ok (arg_scan keep y 0 1 ys)
  | DScalar (SFloat x) => Ok 0%nat
  | _ => other d
  end.

Definition np_max {R : Reductions} : data -> result data :=
  np_reduce keep_max np_max_other.

Definition np_min {R : Reductions} : data -> result data :=
  np_reduce keep_min np_min_other.

Definition np_argmax {R : Reductions} : data -> result nat :=
  np_arg keep_max np_argmax_other.

Definition np_argmin {R : Reductions} : data -> result nat :=
  np_arg keep_min np_argmin_other.

(** ** class Function *)

Module Function.

(** An instance: the fields [_dom] and [_f]. *)
Record t : Type := Build { _dom : list float; _f : relation }.

Definition is_evenly_spaced_domain (domain : pyobj) : result bool :=
  let* diff := np_diff domain in
  let* d0 := np_index diff 0 in
  if np_all (map (fun p => isclose (fst p) (snd p))
               (combine (map (fun d => (d - d0)%float) diff)
                        (np_zeros (List.length diff))))
  then Ok true
  else Ok false.

(** [numpy.array(domain)] for a domain that went through [numpy.diff]: only
    one-dimensional arrays get this far, [numpy.diff] raises on the rest. *)
Definition np_array (domain : pyobj) : result (list float) :=
  match domain with
  | PGrid g => Ok g
  | _ => Raise ValueError
  end.

(** The relation stored for a callable argument; a [Function] is unwrapped
    by [get_function]. *)
Definition as_relation {B : Backend} (function_callable : pyobj) : relation :=
  match function_callable with
  | PFunction _ f => f
  | PCallable f => f
  | other => foreign_relation other
  end.

Definition __init__ {B : Backend} (domain function_callable : pyobj) : result t :=
  let* even := is_evenly_spaced_domain domain in
  if negb even
  then Raise (RuntimeWarning "Given domain is not equidistantly spaced")
  else
    let* dom := np_array domain in
    if negb (callable function_callable)
    then Raise (RuntimeError "function must be callable")
    else Ok (Build dom (as_relation function_callable)).

Definition get_domain (self : t) : list float := _dom self.

Definition get_function (self : t) : relation := _f self.

Definition __call__ (self : t) (x : data) : result data := _f self x.

Definition eval (self : t) : result data :=
  __call__ self (DArray (get_domain self)).

Definition get_dx (domain : list float) : scalar :=
  if (List.length domain <? 2)%nat then SInt 0
  else SFloat (nth 1 domain nan - nth 0 domain nan)%float.

(** An instance seen as an operand. *)
Definition obj (self : t) : pyobj := PFunction (_dom self) (_f self).

Definition isinstance_int (other : pyobj) : bool :=
  match other with
  | PScalar (SInt _) | PScalar (SBool _) => true
  | _ => false
  end.

Definition isinstance_float (other : pyobj) : bool :=
  match other with
  | PScalar (SFloat _) => true
  | _ => false
  end.

(** [numpy.complex] is the builtin [complex], [numpy.float] the builtin
    [float]. *)
Definition isinstance_complex (other : pyobj) : bool :=
  match other with
  | PScalar (SComplex _) => true
  | _ => false
  end.

Definition _is_number (other : pyobj) : bool :=
  isinstance_int other || isinstance_float other
  || isinstance_complex other || isinstance_float other.

(** The common shape of [__add__], [__sub__], [__pow__], [__mul__] and
    [__truediv__]; [None] is the value of a method that falls off its end.
    The new relation calls the operands' relations when it is itself called;
    instances are values here, so the relation it reads is the one the
    operand had when the operator was applied. *)
Definition operator {B : Backend} (op : binop) (self : t) (other : pyobj)
    : result (option t) :=
  match other with
  | PFunction _ g =>
      let* h := __init__ (PGrid (_dom self))
                  (PCallable (fun x =>
                     let* a := _f self x in
                     let* b := g x in
                     py_binop op a b)) in
      Ok (Some h)
  | _ =>
      if _is_number other then
        let* h := __init__ (PGrid (_dom self))
                    (PCallable (fun x =>
                       let* a := _f self x in
                       match other with
                       | PScalar s => py_binop op a (DScalar s)
                       | _ => Raise TypeError
                       end)) in
        Ok (Some h)
      else Ok None
  end.

Definition __add__ {B : Backend} := operator Add.
Definition __sub__ {B : Backend} := operator Sub.
Definition __pow__ {B : Backend} := operator Pow.
Definition __mul__ {B : Backend} := operator Mul.
Definition __truediv__ {B : Backend} := operator TrueDiv.

(** The attribute [.real] of a relation value. *)
Inductive real_attr : Type :=
| RFloat (x : float)
| RInt (z : Z)
| ROther.

Definition dot_real (d : data) : result real_attr :=
  match d with
  | DScalar (SFloat x) => Ok (RFloat x)
  | DScalar (SComplex c) => Ok (RFloat (re c))
  | DScalar (SInt z) => Ok (RInt z)
  | DScalar (SBool b) => Ok (RInt (Z.b2z b))
  | DScalar SNone | DScalar (SStr _) => Raise AttributeError
  | DArray _ | DCArray _ => Ok ROther
  end.

(** The condition [(f0.real * fn.real) < 0]. *)
Definition sign_changed {B : Backend} (f0 fn : data) : result bool :=
  let* a := dot_real f0 in
  let* b := dot_real fn in
  match a, b with
  | RFloat x, RFloat y => Ok (PrimFloat.ltb (x * y) 0)
  | RInt m, RInt n => Ok (m * n <? 0)%Z
  | _, _ => sign_test_other f0 fn
  end.

(** The body of [for el in self._dom], with the loop variables [f0] and
    [roots] threaded through. *)
Fixpoint find_zeros_loop {B : Backend} (f : relation) (f0 : data)
    (roots : list float) (els : list float) : result (list float) :=
  match els with
  | [] => Ok roots
  | el :: rest =>
      let* fn := f (DScalar (SFloat el)) in
      let* flip := sign_changed f0 fn in
      if flip
      then find_zeros_loop f fn (roots ++ [el]) rest
      else find_zeros_loop f f0 roots rest
  end.

Definition find_zeros {B : Backend} (self : t) : result (list float) :=
  let* d0 := np_index (_dom self) 0 in
  let* f0 := _f self (DScalar (SFloat d0)) in
  find_zeros_loop (_f self) f0 [] (_dom self).

Definition remesh {B : Backend} (G : globals) (self : t) (new_mesh : list float)
    : result t :=
  let* samples := _f self (DArray new_mesh) in
  let* rel := to_function G new_mesh (FSamples samples) None true in
  __init__ (PGrid new_mesh) (PCallable rel).

Definition vremesh {B : Backend} (G : globals) (self : t)
    (selector : option float * option float) (dstart dstop : Z) : result t :=
  let* mesh := vslice (get_domain self) selector dstart dstop in
  remesh G self mesh.

(** [reinterpolate] assigns [self._f]; the updated instance is returned. *)
Definition reinterpolate {B : Backend} (G : globals) (self : t) : result t :=
  let* rel := to_function G (_dom self) (FCallable (_f self)) None true in
  Ok (Build (_dom self) rel).

(** The class method [Function.to_function(domain, feval)]. *)
Definition to_function {B : Backend} (G : globals) (domain : list float)
    (feval : feval_arg) : result t :=
  let* rel := to_function G domain feval None true in
  __init__ (PGrid domain) (PCallable rel).

(** [copy]: the constructor applied to the instance's own fields. *)
Definition copy {B : Backend} (self : t) : result t :=
  __init__ (PGrid (_dom self)) (PCallable (_f self)).

(** [shift(offset, domain)], for a float offset; [self._dom + offset] adds the
    offset to every point. *)
Definition shift {B : Backend} (self : t) (offset : float) (domain : bool)
    : result t :=
  let dom := if domain
             then map (fun x => (x + offset)%float) (_dom self)
             else _dom self in
  let f := _f self in
  __init__ (PGrid dom)
    (PCallable (fun x =>
       let* y := py_binop Sub x (DScalar (SFloat offset)) in
       f y)).

(** [apply(function)]: [lambda x: function(f(x))]. *)
Definition apply {B : Backend} (self : t) (function : relation) : result t :=
  let f := _f self in
  __init__ (PGrid (_dom self))
    (PCallable (fun x => let* y := f x in function y)).

(** [composeWith(function)]: [lambda x: f(function(x))]. *)
Definition composeWith {B : Backend} (self : t) (function : relation) : result t :=
  let f := _f self in
  __init__ (PGrid (_dom self))
    (PCallable (fun x => let* y := function x in f y)).

(** The class method [Function.from_function(fun)]. *)
Definition from_function {B : Backend} (G : globals) (fn : t) : result t :=
  to_function G (get_domain fn) (FCallable (get_function fn)).

Definition add {B : Backend} (self : t) (other : pyobj) : result (option t) :=
  __add__ self other.

Definition max {R : Reductions} (self : t) : result data :=
  let* v := eval self in np_max v.

Definition min {R : Reductions} (self : t) : result data :=
  let* v := eval self in np_min v.

Definition argmax {R : Reductions} (self : t) : result float :=
  let* v := eval self in
  let* i := np_argmax v in
  np_index (get_domain self) i.

Definition argmin {R : Reductions} (self : t) : result float :=
  let* v := eval self in
  let* i := np_argmin v in
  np_index (get_domain self) i.

End Function.

(** ** class UnevenlySpacedFunction

    The subclass overrides the spacing check; everything else, the
    constructor included, is inherited.  Its instances are [Function]
    instances.  The domain is a one-dimensional real array. *)

Module UnevenlySpacedFunction.

Definition is_evenly_spaced_domain (domain : pyobj) : result bool := Ok true.

(** The inherited [__init__], which calls the overriding check. *)
Definition __init__ {B : Backend} (domain : list float) (function_callable : pyobj)
    : result Function.t :=
  let* even := is_evenly_spaced_domain (PGrid domain) in
  if negb even
  then Raise (RuntimeWarning "Given domain is not equidistantly spaced")
  else
    if negb (callable function_callable)
    then Raise (RuntimeError "function must be callable")
    else Ok (Function.Build domain (Function.as_relation function_callable)).

End UnevenlySpacedFunction.

(** ** [evaluate] *)

Fixpoint floats_of (ds : list data) : option (list float) :=
  match ds with
  | [] => Some []
  | DScalar (SFloat x) :: rest =>
      match floats_of rest with
      | Some xs => Some (x :: xs)
      | None => None
      end
  | _ => None
  end.

(** [numpy.array(outputs)] as a value: a real array when every output is a
    float, a complex array otherwise. *)
Definition np_array_data {B : Backend} (ds : list data) : result data :=
  match floats_of ds with
  | Some xs => Ok (DArray xs)
  | None => let* cs := np_array_outputs ds in Ok (DCArray cs)
  end.

(** [len] of an array; a scalar is not an [ndarray] nor a list. *)
Definition data_len (d : data) : option nat :=
  match d with
  | DArray a => Some (List.length a)
  | DCArray a => Some (List.length a)
  | DScalar _ => None
  end.

Definition evaluate {B : Backend} (domain : list float) (function : feval_arg)
    : result data :=
  match function with
  | FCallable f =>
      let* outs := map_result (fun x => f (DScalar (SFloat x))) domain in
      np_array_data outs
  | FSamples d =>
      match data_len d with
      | Some n =>
          if (List.length domain =? n)%nat then Ok d
          else Raise (RuntimeError "Cannot evaluate, unknown type")
      | None => Raise (RuntimeError "Cannot evaluate, unknown type")
      end
  end.

(** The parts of scipy and numpy used by [Integral] and [Derivative]. *)
Class Calculus : Type := {
  (** [scipy.integrate.cumtrapz(y=y, dx=dx, initial=0)] *)
  cumtrapz : data -> scalar -> result data;
  (** [numpy.gradient(y, dx, edge_order=2)] *)
  gradient : data -> scalar -> result data
}.

(** ** class Integral *)

Module Integral.

(** [numpy.array([x0, x1])]: a new array object.  Below only its identity is
    looked at, not its elements. *)
Definition bounds_array (x0 x1 : option float) : pyobj :=
  PGrid (map (fun b => match b with Some v => v | None => nan end) [x0; x1]).

Definition integrate {B : Backend} (G : globals) (fn : Function.t)
    (x0 x1 : option float) : result data :=
  let* some_none := py_any (DScalar (SBool (is_None (bounds_array x0 x1)))) in
  let* fn := if negb some_none
             then Function.vremesh G fn (x0, x1) 0 0
             else Ok fn in
  let dx := Function.get_dx (Function.get_domain fn) in
  let* y := Function.eval fn in
  trapz y dx.

(** The class method [Integral.to_function(domain, feval, C)]. *)
Definition to_function {B : Backend} {Q : Calculus} (G : globals)
    (domain : list float) (feval : feval_arg) (C : scalar) : result Function.t :=
  let dx := Function.get_dx domain in
  let* y := evaluate domain feval in
  let* F0 := cumtrapz y dx in
  let* Feval := py_binop Add F0 (DScalar C) in
  Function.to_function G domain (FSamples Feval).

(** [Integral.from_function(fun, x0, C)], for [x0] a float or [None].  In
    [F - F(x0)] the operand is the value of [F] at [x0]; an array is neither
    a Function nor a number, and [__sub__] answers [None] for it. *)
Definition from_function {B : Backend} {Q : Calculus} (G : globals)
    (fn : Function.t) (x0 : option float) (C : scalar)
    : result (option Function.t) :=
  match x0 with
  | None =>
      let* F := to_function G (Function.get_domain fn)
                  (FCallable (Function.get_function fn)) C in
      Ok (Some F)
  | Some x0 =>
      let* F := to_function G (Function.get_domain fn)
                  (FCallable (Function.get_function fn)) (SInt 0) in
      let* v := Function.__call__ F (DScalar (SFloat x0)) in
      match v with
      | DScalar s => Function.__sub__ F (PScalar s)
      | DArray _ | DCArray _ => Ok None
      end
  end.

End Integral.

(** ** class Derivative *)

Module Derivative.

Definition to_function {B : Backend} {Q : Calculus} (G : globals)
    (domain : list float) (feval : feval_arg) : result Function.t :=
  let* feval := evaluate domain feval in
  let* fprime := gradient feval (Function.get_dx domain) in
  Function.to_function G domain (FSamples fprime).

Definition from_function {B : Backend} {Q : Calculus} (G : globals)
    (fn : Function.t) : result Function.t :=
  to_function G (Function.get_domain fn) (FCallable (Function.get_function fn)).

End Derivative.

(** ** class ParametrizedFunction *)

Module ParametrizedFunction.

Record t : Type := Build {
  base : Function.t;
  _dom_factory : pyobj;
  _f_factory : pyobj;
  _param_names : list string;
  _params : list float
}.

(** The closure cells allocated so far; a cell is named by its index. *)
Definition cells : Type := list pyobj.

Definition read_cell (sigma : cells) (c : nat) : pyobj :=
  nth c sigma (PScalar SNone).

Fixpoint write_cell (sigma : cells) (c : nat) (v : pyobj) : cells :=
  match sigma, c with
  | [], _ => []
  | _ :: rest, O => v :: rest
  | o :: rest, S c' => o :: write_cell rest c' v
  end.

(** Calling an object with the parameter vector.  The closure
    [lambda x: domain] returns what its cell holds at the time of the call. *)
Definition call {B : Backend} (sigma : cells) (o : pyobj) (parameters : list float)
    : result pyobj :=
  match o with
  | PFactory fac => fac parameters
  | PCellLambda c => Ok (read_cell sigma c)
  | PCallable f | PFunction _ f => call_with_parameters f parameters
  | PScalar _ | PGrid _ => Raise TypeError
  end.

(** [__init__].  The argument [domain] is captured by the lambda of line 45
    and therefore lives in a cell of its own, allocated on entry; every
    assignment to [domain] writes that cell and every use reads it. *)
Definition __init__ {B : Backend} (sigma : cells) (domain pfc : pyobj)
    (parameter_names : list string) (parameters : list float)
    : result t * cells :=
  let c := List.length sigma in
  let sigma := sigma ++ [domain] in
  let sigma :=
    if negb (callable (read_cell sigma c)) then
      (* domain = numpy.array(domain), for what is not an ndarray yet *)
      let sigma := write_cell sigma c (read_cell sigma c) in
      (* domain = lambda x: domain *)
      write_cell sigma c (PCellLambda c)
    else sigma in
  let dom_factory := read_cell sigma c in
  if negb (callable pfc)
  then (Raise (RuntimeError "function must be callable"), sigma)
  else
    if negb (List.length parameter_names =? List.length parameters)%nat
    then (Raise (RuntimeError
                   "Number of given parameters does not match the expected number"),
          sigma)
    else
      (let* dom := call sigma dom_factory parameters in
       let* f := call sigma pfc parameters in
       let* b := Function.__init__ dom f in
       Ok (Build b dom_factory pfc parameter_names parameters),
       sigma).

Definition reparametrize {B : Backend} (sigma : cells) (self : t)
    (params : list float) : result t * cells :=
  __init__ sigma (_dom_factory self) (_f_factory self) (_param_names self) params.

Definition get_params (self : t) : list float := _params self.

Definition get_param_names (self : t) : list string := _param_names self.

(** A [dict] with string keys, in insertion order; assigning to a key that is
    present replaces its value in place. *)
Definition py_dict : Type := list (string * float).

Fixpoint dict_set (d : py_dict) (k : string) (v : float) : py_dict :=
  match d with
  | [] => [(k, v)]
  | (k', v') :: rest =>
      if String.eqb k k' then (k, v) :: rest
      else (k', v') :: dict_set rest k v
  end.

Fixpoint dict_get (d : py_dict) (k : string) : option float :=
  match d with
  | [] => None
  | (k', v') :: rest => if String.eqb k k' then Some v' else dict_get rest k
  end.

(** [dict(pairs)] *)
Definition dict_of (pairs : list (string * float)) : py_dict :=
  fold_left (fun d kv => dict_set d (fst kv) (snd kv)) pairs [].

(** [dict(zip(self._param_names, self._params))] *)
Definition get_params_dict (self : t) : py_dict :=
  dict_of (combine (_param_names self) (_params self)).

Definition get_domain_factory (self : t) : pyobj := _dom_factory self.

Definition get_function_factory (self : t) : pyobj := _f_factory self.

End ParametrizedFunction.

(** ** A backend to run the definitions on examples

    Linear interpolation whatever the kind, float arithmetic on scalars and
    on arrays of equal length.  The theorems below hold for every backend; this
    one only serves to evaluate the model on concrete inputs. *)

Module Reference.

Definition float_binop (op : binop) (x y : float) : result float :=
  match op with
  | Add => Ok (x + y)%float
  | Sub => Ok (x - y)%float
  | Mul => Ok (x * y)%float
  | TrueDiv => Ok (x / y)%float
  | Pow => Raise (OtherError "NotImplementedError")
  end.

Definition binop_data (op : binop) (a b : data) : result data :=
  match a, b with
  | DScalar (SFloat x), DScalar (SFloat y) =>
      let* z := float_binop op x y in Ok (DScalar (SFloat z))
  | DArray xs, DScalar (SFloat y) =>
      let* zs := map_result (fun x => float_binop op x y) xs in Ok (DArray zs)
  | DScalar (SFloat x), DArray ys =>
      let* zs := map_result (fun y => float_binop op x y) ys in Ok (DArray zs)
  | DArray xs, DArray ys =>
      if (List.length xs =? List.length ys)%nat
      then let* zs := map_result (fun p => float_binop op (fst p) (snd p))
                        (combine xs ys) in
           Ok (DArray zs)
      else Raise ValueError
  | _, _ => Raise TypeError
  end.

(** Stable insertion of an index into indices sorted by key. *)
Fixpoint insert_index (x : list float) (i : nat) (sorted : list nat) : list nat :=
  match sorted with
  | [] => [i]
  | j :: rest =>
      if PrimFloat.ltb (nth i x nan) (nth j x nan)
      then i :: j :: rest
      else j :: insert_index x i rest
  end.

Definition argsort (x : list float) : list nat :=
  fold_left (fun acc i => insert_index x i acc) (seq 0 (List.length x)) [].

(** The number of abscissas strictly below [v]. *)
Definition searchsorted (xs : list float) (v : float) : nat :=
  List.length (filter (fun x => PrimFloat.ltb x v) xs).

Definition linear_kernel (kind : string) (xs ys : list float) (x_new : float) : float :=
  let hi := Nat.min (Nat.max (searchsorted xs x_new) 1) (List.length xs - 1) in
  let lo := (hi - 1)%nat in
  let slope := ((nth hi ys nan - nth lo ys nan) / (nth hi xs nan - nth lo xs nan))%float in
  (slope * (x_new - nth lo xs nan) + nth lo ys nan)%float.

(** The least number of abscissas a kind needs: the spline order plus one. *)
Definition min_entries (kind : string) : nat :=
  if String.eqb kind "cubic" then 4
  else if String.eqb kind "quadratic" then 3
  else 2.

Definition reject (kind : string) (xs ys : list float) : option exn :=
  if (List.length xs <? min_entries kind)%nat then Some ValueError else None.

Definition slice (domain : list float) (sel : option float * option float)
    (dstart dstop : Z) : result (list float) :=
  Ok (filter (fun x =>
                match fst sel with Some lo => PrimFloat.leb lo x | None => true end
                && match snd sel with Some hi => PrimFloat.leb x hi | None => true end)
             domain).

Fixpoint trapezoids (dx : float) (y : list float) : float :=
  match y with
  | a :: ((b :: _) as rest) => (dx * (b + a) / 2 + trapezoids dx rest)%float
  | _ => 0%float
  end.

Definition trapz_data (y : data) (dx : scalar) : result data :=
  match y, dx with
  | DArray a, SFloat d => Ok (DScalar (SFloat (trapezoids d a)))
  | DArray a, SInt _ => Ok (DScalar (SFloat (trapezoids 0 a)))
  | _, _ => Raise TypeError
  end.

#[export] Instance backend : Backend := {
  py_binop := binop_data;
  sign_test_other := fun _ _ => Raise TypeError;
  foreign_relation := fun _ _ => Raise TypeError;
  call_with_parameters := fun _ _ => Raise TypeError;
  np_array_other := fun _ => Raise TypeError;
  np_argsort := argsort;
  interp1d_reject := reject;
  interp1d_scalar_y := fun _ => ValueError;
  interp1d_kernel := linear_kernel;
  interp1d_call_other := fun _ => Raise TypeError;
  vslice := slice;
  trapz := trapz_data
}.

End Reference.

(** The identity relation [lambda x: x]. *)
Definition identity_relation : relation := fun x => Ok x.

Definition grid_m1_1_101 : list float := np_linspace (-1) 1 101.

(** The scan of [find_zeros] in the words of its description: walk along the
    domain, remembering the real part [ref] of the sample at the last detected
    sign flip (at the start, of the first sample); a point whose sample has a
    real part of the opposite sign is a detected flip, and is returned. *)
Fixpoint sign_flip_scan (g : float -> float) (ref : float) (pts : list float)
    : list float :=
  match pts with
  | [] => []
  | p :: rest =>
      if PrimFloat.ltb (ref * g p) 0
      then p :: sign_flip_scan g (g p) rest
      else sign_flip_scan g ref rest
  end.

(** [l1] is [l2] with some elements left out, the order kept. *)
Inductive subseq {A : Type} : list A -> list A -> Prop :=
| subseq_nil : subseq [] []
| subseq_skip : forall x l1 l2, subseq l1 l2 -> subseq l1 (x :: l2)
| subseq_keep : forall x l1 l2, subseq l1 l2 -> subseq (x :: l1) (x :: l2).

(** A [Calculus] to run [Integral] and [Derivative] on examples: sequential
    cumulative trapezoids and second-order differences on real arrays. *)

Module ReferenceCalculus.

Fixpoint cumulative (d acc : float) (y : list float) : list float :=
  match y with
  | a :: ((b :: _) as rest) =>
      let acc' := (acc + d * (b + a) / 2)%float in
      acc' :: cumulative d acc' rest
  | _ => []
  end.

Definition step_of (dx : scalar) : option float :=
  match dx with
  | SFloat d => Some d
  | SInt z => Some (float_of_nat (Z.to_nat z))
  | _ => None
  end.

Definition cumtrapz_data (y : data) (dx : scalar) : result data :=
  match y, step_of dx with
  | DArray a, Some d => Ok (DArray (0%float :: cumulative d 0 a))
  | _, _ => Raise TypeError
  end.

Fixpoint central (h : float) (y : list float) : list float :=
  match y with
  | a :: ((_ :: c :: _) as rest) => ((c - a) / (2 * h))%float :: central h rest
  | _ => []
  end.

Definition gradient_data (y : data) (dx : scalar) : result data :=
  match y, step_of dx with
  | DArray ((a :: b :: c :: _) as ys), Some h =>
      let n := List.length ys in
      let first := (-(1.5) / h * a + 2 / h * b + -(0.5) / h * c)%float in
      let last := (0.5 / h * nth (n - 3) ys nan + -(2) / h * nth (n - 2) ys nan
                   + 1.5 / h * nth (n - 1) ys nan)%float in
      Ok (DArray (first :: central h ys ++ [last]))
  | DArray _, Some _ => Raise ValueError
  | _, _ => Raise TypeError
  end.

#[export] Instance calculus : Calculus := {
  cumtrapz := cumtrapz_data;
  gradient := gradient_data
}.

#[export] Instance reductions : Reductions := {
  np_max_other := fun _ => Raise TypeError;
  np_min_other := fun _ => Raise TypeError;
  np_argmax_other := fun _ => Raise TypeError;
  np_argmin_other := fun _ => Raise TypeError
}.

Definition float_of_Z (z : Z) : float :=
  if (z <? 0)%Z then (- float_of_nat (Z.to_nat (- z)))%float
  else float_of_nat (Z.to_nat z).

(** Arithmetic that also takes an integer on the right, as a float. *)
Definition binop_data (op : binop) (a b : data) : result data :=
  match b with
  | DScalar (SInt z) => Reference.binop_data op a (DScalar (SFloat (float_of_Z z)))
  | _ => Reference.binop_data op a b
  end.

Definition backend : Backend := {|
  py_binop := binop_data;
  sign_test_other := @sign_test_other Reference.backend;
  foreign_relation := @foreign_relation Reference.backend;
  call_with_parameters := @call_with_parameters Reference.backend;
  np_array_other := @np_array_other Reference.backend;
  np_argsort := @np_argsort Reference.backend;
  interp1d_reject := @interp1d_reject Reference.backend;
  interp1d_scalar_y := @interp1d_scalar_y Reference.backend;
  interp1d_kernel := @interp1d_kernel Reference.backend;
  interp1d_call_other := @interp1d_call_other Reference.backend;
  vslice := @vslice Reference.backend;
  trapz := @trapz Reference.backend
|}.

End ReferenceCalculus.

(** The samples of [f] on [dom] have floating-point real parts [g el]. *)
Definition real_samples {B : Backend} (f : relation) (g : float -> float)
    (dom : list float) : Prop :=
  forall el, In el dom ->
    exists d, f (DScalar (SFloat el)) = Ok d
              /\ Function.dot_real d = Ok (Function.RFloat (g el)).

(** The constructor's invariant: the domain passes the spacing check. *)
Definition well_formed (F : Function.t) : Prop :=
  Function.is_evenly_spaced_domain (PGrid (Function.get_domain F)) = Ok true.

(** The exception of the constructor for a domain that fails the check. *)
Definition uneven_domain_error : exn :=
  RuntimeWarning "Given domain is not equidistantly spaced".

(** The value of one point under the two interpolants of a reconstructed
    relation, fill values included. *)
Definition interp1d_value {B : Backend} (ip : interp1d) (x : float) : float :=
  if above_bounds ip x then ip_fill_above ip
  else if below_bounds ip x then ip_fill_below ip
  else interp1d_kernel (ip_kind ip) (ip_x ip) (ip_y ip) x.

(** [f.eval() op g.eval()]: both operands evaluated on their own domains,
    left operand first, then combined. *)
Definition eval_binop {B : Backend} (op : binop) (f g : Function.t) : result data :=
  let* a := Function.eval f in
  let* b := Function.eval g in
  py_binop op a b.

(** The value the boundary policy prescribes outside the fitted span. *)
Definition boundary_value (to_zero : bool) : complex :=
  if to_zero then Complex 0 0 else Complex nan nan.

(** A point lies outside the span of the sorted abscissas [xs]. *)
Definition outside_span (xs : list float) (x : float) : bool :=
  PrimFloat.ltb x (hd nan xs) || PrimFloat.ltb (last xs nan) x.

(** * Properties *)

Unset Implicit Arguments.

(** ** Helper lemmas *)

Lemma bind_Ok : forall (A B : Type) (a : A) (k : A -> result B),
  bind (Ok a) k = k a.
Proof. reflexivity. Qed.

Lemma diff1_short : forall g : list float,
  (List.length g <= 1)%nat -> diff1 g = [].
Proof.
  intros [| x [| y rest]] H; simpl in *; try reflexivity; lia.
Qed.

Lemma is_evenly_spaced_domain_grid : forall (o : pyobj) (b : bool),
  Function.is_evenly_spaced_domain o = Ok b -> exists g, o = PGrid g.
Proof.
  intros o b H. destruct o; try discriminate H. eauto.
Qed.

Lemma init_on_even_grid : forall (B : Backend) (g : list float) (f : relation),
  Function.is_evenly_spaced_domain (PGrid g) = Ok true ->
  Function.__init__ (PGrid g) (PCallable f) = Ok (Function.Build g f).
Proof.
  intros B g f H. unfold Function.__init__. rewrite H. reflexivity.
Qed.

Lemma read_write_fresh : forall (sigma : ParametrizedFunction.cells) (o v : pyobj),
  ParametrizedFunction.read_cell
    (ParametrizedFunction.write_cell (sigma ++ [o]) (List.length sigma) v)
    (List.length sigma) = v.
Proof.
  induction sigma as [| a sigma IH]; intros o v; simpl.
  - reflexivity.
  - apply IH.
Qed.

Lemma read_fresh : forall (sigma : ParametrizedFunction.cells) (o : pyobj),
  ParametrizedFunction.read_cell (sigma ++ [o]) (List.length sigma) = o.
Proof.
  induction sigma as [| a sigma IH]; intros o; simpl.
  - reflexivity.
  - apply IH.
Qed.

Lemma write_write_fresh : forall (sigma : ParametrizedFunction.cells) (o v w : pyobj),
  ParametrizedFunction.write_cell
    (ParametrizedFunction.write_cell (sigma ++ [o]) (List.length sigma) v)
    (List.length sigma) w
  = ParametrizedFunction.write_cell (sigma ++ [o]) (List.length sigma) w.
Proof.
  induction sigma as [| a sigma IH]; intros o v w; simpl.
  - reflexivity.
  - f_equal. apply IH.
Qed.

(** ** C1: [Integral.integrate] *)

(** C1 (code defect).  The guard of [Integral.integrate] applies the builtin
    [any] to the boolean [numpy.array([x0, x1]) is None], which is not
    iterable: every call raises [TypeError], with or without bounds, before
    any quadrature is done.  No trapezoidal sum is returned. *)
Theorem integrate_always_raises_TypeError :
  forall (B : Backend) (G : globals) (fn : Function.t) (x0 x1 : option float),
    Integral.integrate G fn x0 x1 = Raise TypeError.
Proof.
  intros B G fn x0 x1. unfold Integral.integrate, Integral.bounds_array.
  reflexivity.
Qed.

(** ** C2: short domains *)

(** C2 (code defect).  For a domain with zero or one point, [numpy.diff]
    yields an empty array and [diff[0]] raises [IndexError]: the check does
    not return [True]. *)
Theorem is_evenly_spaced_domain_short_raises :
  forall g : list float,
    (List.length g <= 1)%nat ->
    Function.is_evenly_spaced_domain (PGrid g) = Raise IndexError.
Proof.
  intros g H. unfold Function.is_evenly_spaced_domain, np_diff.
  rewrite (diff1_short g H). reflexivity.
Qed.

Lemma is_evenly_spaced_domain_short_raises_witness :
  Function.is_evenly_spaced_domain (PGrid [5%float]) = Raise IndexError.
Proof.
  apply is_evenly_spaced_domain_short_raises. simpl. lia.
Defined.

(** ** C3: a grid passed to [ParametrizedFunction] *)

(** After the two assignments of the non-callable branch, the cell of
    [domain] holds the closure itself, so the domain factory returns the
    closure, not the grid, for every parameter vector. *)
Lemma constant_factory_returns_itself :
  forall (B : Backend) (sigma : ParametrizedFunction.cells) (domain : pyobj)
         (parameters : list float),
    let c := List.length sigma in
    let sigma' :=
      ParametrizedFunction.write_cell
        (ParametrizedFunction.write_cell (sigma ++ [domain]) c domain) c
        (PCellLambda c) in
    ParametrizedFunction.call sigma' (ParametrizedFunction.read_cell sigma' c) parameters
    = Ok (PCellLambda c).
Proof.
  intros B sigma domain parameters c sigma'. subst c sigma'.
  rewrite write_write_fresh, read_write_fresh. simpl.
  rewrite read_write_fresh. reflexivity.
Qed.

(** C3 (code defect).  When [domain] is not callable, the wrapper
    [lambda x: domain] reads the variable it was itself assigned to: the
    factory returns the closure and [Function.__init__] receives a function
    object as its domain.  Construction raises for every grid and every
    parameter vector, and raises [ValueError] (from [numpy.diff]) whenever
    the relation factory and the parameter count are accepted; no Function
    with the given grid as domain is built. *)
Theorem parametrized_grid_domain_never_constructs :
  forall (B : Backend) (sigma : ParametrizedFunction.cells) (domain pfc : pyobj)
         (names : list string) (parameters : list float),
    callable domain = false ->
    (exists e, fst (ParametrizedFunction.__init__ sigma domain pfc names parameters)
               = Raise e)
    /\ (forall f,
          callable pfc = true ->
          List.length names = List.length parameters ->
          ParametrizedFunction.call
            (snd (ParametrizedFunction.__init__ sigma domain pfc names parameters))
            pfc parameters = Ok f ->
          fst (ParametrizedFunction.__init__ sigma domain pfc names parameters)
          = Raise ValueError).
Proof.
  intros B sigma domain pfc names parameters Hdom.
  unfold ParametrizedFunction.__init__.
  rewrite read_fresh, Hdom. cbn [negb].
  rewrite write_write_fresh, read_write_fresh.
  split.
  - destruct (callable pfc); cbn [negb fst].
    + destruct (List.length names =? List.length parameters)%nat; cbn [negb fst].
      * cbn [ParametrizedFunction.call]. rewrite read_write_fresh. cbn [bind].
        destruct (ParametrizedFunction.call _ pfc parameters) as [f | e];
          cbn [bind]; [exists ValueError; reflexivity | eauto].
      * eauto.
    + eauto.
  - intros f Hpfc Hlen. rewrite Hpfc.
    apply Nat.eqb_eq in Hlen. rewrite Hlen. cbn [negb fst snd].
    intros Hcall. cbn [ParametrizedFunction.call]. rewrite read_write_fresh.
    cbn [bind]. rewrite Hcall. reflexivity.
Qed.

Lemma parametrized_grid_domain_never_constructs_witness :
  fst (ParametrizedFunction.__init__ (B := Reference.backend) []
         (PGrid [0; 1; 2]%float)
         (PFactory (fun p => Ok (PCallable identity_relation)))
         ["m"%string] [2%float])
  = Raise ValueError.
Proof.
  refine (proj2 (@parametrized_grid_domain_never_constructs Reference.backend []
                   (PGrid [0; 1; 2]%float)
                   (PFactory (fun p => Ok (PCallable identity_relation)))
                   ["m"%string] [2%float] _)
                (PCallable identity_relation) _ _ _); reflexivity.
Defined.

(** ** C4: non-equidistant domains *)

(** C4.  Whenever the spacing check answers [False] for the domain,
    [Function.__init__] raises the "not equidistantly spaced" exception,
    whatever the relation argument; no instance is constructed. *)
Theorem init_rejects_uneven_domain :
  forall (B : Backend) (domain function_callable : pyobj),
    Function.is_evenly_spaced_domain domain = Ok false ->
    Function.__init__ domain function_callable
    = Raise (RuntimeWarning "Given domain is not equidistantly spaced").
Proof.
  intros B domain fc H. unfold Function.__init__. rewrite H. reflexivity.
Qed.

Lemma init_rejects_uneven_domain_witness :
  Function.is_evenly_spaced_domain (PGrid [0; 1; 3]%float) = Ok false
  /\ Function.__init__ (B := Reference.backend) (PGrid [0; 1; 3]%float)
       (PCallable identity_relation)
     = Raise (RuntimeWarning "Given domain is not equidistantly spaced").
Proof.
  split.
  - vm_compute. reflexivity.
  - apply init_rejects_uneven_domain. vm_compute. reflexivity.
Defined.

(** ** C5: [find_zeros] *)

Lemma subseq_sign_flip_scan : forall (g : float -> float) (pts : list float) (ref : float),
  subseq (sign_flip_scan g ref pts) pts.
Proof.
  induction pts as [| p rest IH]; intros ref; simpl.
  - constructor.
  - destruct (PrimFloat.ltb (ref * g p) 0).
    + apply subseq_keep, IH.
    + apply subseq_skip, IH.
Qed.

(** The loop, started with any accumulated [roots] and any reference sample
    whose real part is the float [ref], appends the scan to [roots]. *)
Lemma find_zeros_loop_scan :
  forall (B : Backend) (f : relation) (g : float -> float) (els : list float)
         (f0 : data) (ref : float) (roots : list float),
    Function.dot_real f0 = Ok (Function.RFloat ref) ->
    (forall el, In el els ->
       exists d, f (DScalar (SFloat el)) = Ok d
                 /\ Function.dot_real d = Ok (Function.RFloat (g el))) ->
    Function.find_zeros_loop f f0 roots els = Ok (roots ++ sign_flip_scan g ref els).
Proof.
  intros B f g els. induction els as [| el rest IH]; intros f0 ref roots Hf0 Hg.
  - simpl. rewrite app_nil_r. reflexivity.
  - destruct (Hg el (or_introl eq_refl)) as [d [Hd Hre]].
    cbn [Function.find_zeros_loop sign_flip_scan]. rewrite Hd. cbn [bind].
    unfold Function.sign_changed. rewrite Hf0, Hre. cbn [bind].
    destruct (PrimFloat.ltb (ref * g el) 0).
    + rewrite (IH d (g el) (roots ++ [el]) Hre).
      * rewrite <- app_assoc. reflexivity.
      * intros el' Hin. apply Hg. right. exact Hin.
    + apply IH; [exact Hf0 |]. intros el' Hin. apply Hg. right. exact Hin.
Qed.

(** C5.  On a non-empty domain whose samples have floating-point real parts
    [g el], [find_zeros] returns exactly the points at which the scan detects
    a sign flip of the real part, in domain order (a sub-sequence of the
    domain).  For [Function(linspace(-1, 1, 101), lambda x: x)] the result is
    the single grid point that follows the sample at 0. *)
Theorem find_zeros_sign_flip_scan :
  forall (B : Backend),
    (forall (f : relation) (g : float -> float) (d0 : float) (rest : list float),
       (forall el, In el (d0 :: rest) ->
          exists d, f (DScalar (SFloat el)) = Ok d
                    /\ Function.dot_real d = Ok (Function.RFloat (g el))) ->
       Function.find_zeros (Function.Build (d0 :: rest) f)
       = Ok (sign_flip_scan g (g d0) (d0 :: rest))
       /\ subseq (sign_flip_scan g (g d0) (d0 :: rest)) (d0 :: rest))
    /\ Function.find_zeros (Function.Build (np_linspace (-1) 1 101) identity_relation)
       = Ok [0.020000000000000018%float]
    /\ nth 50 (np_linspace (-1) 1 101) nan = 0%float
    /\ nth 51 (np_linspace (-1) 1 101) nan = 0.020000000000000018%float.
Proof.
  intros B. split; [| split; [| split]].
  - intros f g d0 rest Hg. split; [| apply subseq_sign_flip_scan].
    unfold Function.find_zeros. cbn [Function._dom Function._f].
    cbn [np_index nth_error bind].
    destruct (Hg d0 (or_introl eq_refl)) as [d [Hd Hre]].
    rewrite Hd. cbn [bind].
    rewrite (find_zeros_loop_scan B f g (d0 :: rest) d (g d0) [] Hre Hg).
    reflexivity.
  - vm_compute. reflexivity.
  - vm_compute. reflexivity.
  - vm_compute. reflexivity.
Qed.

Lemma find_zeros_sign_flip_scan_witness :
  Function.find_zeros (B := Reference.backend)
    (Function.Build [-1; 0; 1]%float identity_relation)
  = Ok [1%float].
Proof.
  refine (eq_trans
            (proj1 (proj1 (find_zeros_sign_flip_scan Reference.backend)
                      identity_relation (fun x => x) (-1)%float [0; 1]%float _))
            _).
  - intros el _. exists (DScalar (SFloat el)). split; reflexivity.
  - vm_compute. reflexivity.
Defined.

(** ** C6: the binary operators on two Functions *)

Lemma operator_on_functions :
  forall (B : Backend) (op : binop) (f g : Function.t),
    Function.is_evenly_spaced_domain (PGrid (Function.get_domain f)) = Ok true ->
    Function.get_domain g = Function.get_domain f ->
    exists h,
      Function.operator op f (Function.obj g) = Ok (Some h)
      /\ Function.get_domain h = Function.get_domain f
      /\ Function.eval h = eval_binop op f g.
Proof.
  intros B op f g Heven Hdom. unfold Function.operator, Function.obj.
  unfold Function.get_domain in Heven.
  rewrite (init_on_even_grid B _ _ Heven). cbn [bind].
  eexists. split; [reflexivity |]. split; [reflexivity |].
  unfold eval_binop, Function.eval, Function.__call__. rewrite Hdom.
  reflexivity.
Qed.

(** C6.  On an evenly spaced domain (one that passes the constructor's
    check, hence with at least two points), each of [f + g], [f - g],
    [f * g] and [f / g] is a new Function on the domain of [f], and its
    [eval()] is the same computation as the operator applied to [f.eval()]
    and [g.eval()]. *)
Theorem binary_operators_pointwise :
  forall (B : Backend) (f g : Function.t),
    Function.is_evenly_spaced_domain (PGrid (Function.get_domain f)) = Ok true ->
    Function.get_domain g = Function.get_domain f ->
    (exists h, Function.__add__ f (Function.obj g) = Ok (Some h)
               /\ Function.get_domain h = Function.get_domain f
               /\ Function.eval h = eval_binop Add f g)
    /\ (exists h, Function.__sub__ f (Function.obj g) = Ok (Some h)
                  /\ Function.get_domain h = Function.get_domain f
                  /\ Function.eval h = eval_binop Sub f g)
    /\ (exists h, Function.__mul__ f (Function.obj g) = Ok (Some h)
                  /\ Function.get_domain h = Function.get_domain f
                  /\ Function.eval h = eval_binop Mul f g)
    /\ (exists h, Function.__truediv__ f (Function.obj g) = Ok (Some h)
                  /\ Function.get_domain h = Function.get_domain f
                  /\ Function.eval h = eval_binop TrueDiv f g).
Proof.
  intros B f g Heven Hdom.
  repeat split; apply operator_on_functions; assumption.
Qed.

Lemma binary_operators_pointwise_witness :
  exists h,
    Function.__add__ (B := Reference.backend)
      (Function.Build [0; 1; 2]%float identity_relation)
      (Function.obj (Function.Build [0; 1; 2]%float identity_relation))
    = Ok (Some h)
    /\ Function.get_domain h = [0; 1; 2]%float
    /\ Function.eval h = Ok (DArray [0; 2; 4]%float).
Proof.
  destruct (proj1 (binary_operators_pointwise Reference.backend
                     (Function.Build [0; 1; 2]%float identity_relation)
                     (Function.Build [0; 1; 2]%float identity_relation)
                     eq_refl eq_refl))
    as [h [Hadd [Hdom Heval]]].
  exists h. split; [exact Hadd |]. split; [exact Hdom |].
  rewrite Heval. vm_compute. reflexivity.
Defined.

(** ** C10: operands that are neither Functions nor numbers *)

(** C10.  When the right operand is not a Function and [_is_number] answers
    [False] for it (a string, a list or array, [None], a callable), each of
    the five operator methods falls off its end: it returns [None], raises
    nothing and builds no Function. *)
Theorem operators_return_None_on_other_operands :
  forall (B : Backend) (f : Function.t) (other : pyobj),
    is_Function other = false ->
    Function._is_number other = false ->
    Function.__add__ f other = Ok None
    /\ Function.__sub__ f other = Ok None
    /\ Function.__mul__ f other = Ok None
    /\ Function.__truediv__ f other = Ok None
    /\ Function.__pow__ f other = Ok None.
Proof.
  intros B f other Hfun Hnum.
  unfold Function.__add__, Function.__sub__, Function.__mul__,
    Function.__truediv__, Function.__pow__, Function.operator.
  destruct other; try discriminate Hfun; rewrite Hnum; repeat split.
Qed.

Lemma operators_return_None_on_other_operands_witness :
  Function.__add__ (B := Reference.backend)
    (Function.Build [0; 1; 2]%float identity_relation) (PScalar (SStr "abc"))
  = Ok None
  /\ Function.__pow__ (B := Reference.backend)
       (Function.Build [0; 1; 2]%float identity_relation) (PGrid [1; 2]%float)
     = Ok None.
Proof.
  split.
  - apply (operators_return_None_on_other_operands Reference.backend
             (Function.Build [0; 1; 2]%float identity_relation)
             (PScalar (SStr "abc")) eq_refl eq_refl).
  - apply (operators_return_None_on_other_operands Reference.backend
             (Function.Build [0; 1; 2]%float identity_relation)
             (PGrid [1; 2]%float) eq_refl eq_refl).
Defined.

(** ** C9: reconstruction over an empty domain *)

(** C9.  Over a 0-length domain [to_function] returns [lambda x: 0] for
    every second argument (callable or samples), kind and fill policy; the
    result does not depend on the backend, whose interpolation is not
    consulted, and it evaluates to the integer 0 on every input. *)
Theorem to_function_empty_domain :
  forall (B : Backend) (G : globals) (feval : feval_arg)
         (interpolation : option string) (to_zero : bool),
    to_function G [] feval interpolation to_zero = Ok zero_relation
    /\ forall x : data, zero_relation x = Ok (DScalar (SInt 0)).
Proof.
  intros B G feval interpolation to_zero. split.
  - destruct feval; reflexivity.
  - intros x. reflexivity.
Qed.

(** ** C8: the module-wide default interpolation kind *)

(** C8.  The default kind is "linear" after import; [set_interpolation_type]
    stores its argument and returns the kind stored before; a reconstruction
    without an explicit kind is the reconstruction with the kind stored in
    the globals at the time of the call.  Constructing a Function does not
    read the global; reconstructing it (here by [reinterpolate]) after the
    global was set to [k] is the reconstruction with kind [k], whatever the
    global was when the Function was built.  With a backend that needs four
    points for "cubic", a three-point Function that reinterpolates under the
    initial global fails to do so after the global is set to "cubic". *)
Theorem interpolation_kind_is_read_at_reconstruction :
  FUNCTION_INTERPOLATION_TYPE initial_globals = "linear"%string
  /\ (forall (k : string) (G : globals),
        fst (set_interpolation_type k G) = FUNCTION_INTERPOLATION_TYPE G
        /\ FUNCTION_INTERPOLATION_TYPE (snd (set_interpolation_type k G)) = k)
  /\ (forall (B : Backend) (G : globals) (x_space : list float) (feval : feval_arg)
             (to_zero : bool),
        to_function G x_space feval None to_zero
        = to_function G x_space feval (Some (FUNCTION_INTERPOLATION_TYPE G)) to_zero)
  /\ (forall (B : Backend) (G G' : globals) (k : string) (F : Function.t),
        Function.reinterpolate (snd (set_interpolation_type k G)) F
        = (let* rel := to_function G' (Function.get_domain F)
                         (FCallable (Function.get_function F)) (Some k) true in
           Ok (Function.Build (Function.get_domain F) rel)))
  /\ (let F := Function.Build [0; 1; 2]%float identity_relation in
      (exists F', Function.reinterpolate (B := Reference.backend) initial_globals F
                  = Ok F')
      /\ Function.reinterpolate (B := Reference.backend)
           (snd (set_interpolation_type "cubic" initial_globals)) F
         = Raise ValueError).
Proof.
  split; [reflexivity |].
  split; [intros k G; split; reflexivity |].
  split; [intros B G x_space feval to_zero; reflexivity |].
  split; [intros B G G' k F; reflexivity |].
  split.
  - eexists. vm_compute. reflexivity.
  - vm_compute. reflexivity.
Qed.

(** ** C7: the boundary policy of a reconstructed relation *)

Ltac bind_inv H :=
  match type of H with
  | bind ?m _ = Ok _ =>
      let E := fresh "E" in
      destruct m eqn:E; cbn [bind] in H; [| discriminate H]
  end.

Lemma make_interp1d_Ok :
  forall (B : Backend) (x y : list float) (fv : fill_value) (be : bool)
         (kind : string) (ip : interp1d),
    make_interp1d x y fv be kind = Ok ip ->
    exists xs ys,
      sorted_abscissas x = Ok xs
      /\ ip = Interp1d kind xs ys (fill_below fv) (fill_above fv) be.
Proof.
  intros B x y fv be kind ip H. unfold make_interp1d in H.
  bind_inv H. bind_inv H.
  destruct (interp1d_reject kind a a0); [discriminate H |].
  destruct a as [| x0 xs']; [discriminate H |].
  injection H as <-. eauto.
Qed.

(** Without [bounds_error], evaluation at a point never raises: outside the
    span the fill value is returned, inside it the kernel's value. *)
Lemma interp1d_at_fill :
  forall (B : Backend) (kind : string) (xs ys : list float) (fb fa x : float),
    interp1d_at (Interp1d kind xs ys fb fa false) x
    = Ok (if PrimFloat.ltb (last xs nan) x then fa
          else if PrimFloat.ltb x (hd nan xs) then fb
          else interp1d_kernel kind xs ys x).
Proof.
  intros. unfold interp1d_at, below_bounds, above_bounds. cbn.
  reflexivity.
Qed.

(** C7.  Let [to_function] succeed on a non-empty domain, and let [xs] be
    the sorted abscissas.  The relation it returns is
    [real(x) + 1j * imag(x)] for two interpolants over [xs]; at a point below
    the first or above the last abscissa it evaluates to [0+0j] when
    [to_zero] is true and to a complex not-a-number when it is false; at any
    other point it evaluates to the recombined kernel values.  In both cases
    the evaluation returns: no bounds error is raised. *)
Theorem to_function_boundary_policy :
  forall (B : Backend) (G : globals) (x_space : list float) (feval : feval_arg)
         (interpolation : option string) (to_zero : bool) (rel : relation)
         (xs : list float),
    x_space <> [] ->
    sorted_abscissas x_space = Ok xs ->
    to_function G x_space feval interpolation to_zero = Ok rel ->
    exists real imag,
      rel = interpolated_relation real imag
      /\ ip_x real = xs /\ ip_x imag = xs
      /\ forall x : float,
           (outside_span xs x = true ->
            rel (DScalar (SFloat x)) = Ok (DScalar (SComplex (boundary_value to_zero))))
           /\ (outside_span xs x = false ->
               rel (DScalar (SFloat x))
               = Ok (DScalar (SComplex
                       (recombine
                          (interp1d_kernel (ip_kind real) xs (ip_y real) x)
                          (interp1d_kernel (ip_kind imag) xs (ip_y imag) x))))).
Proof.
  intros B G x_space feval interpolation to_zero rel xs Hne Hxs H.
  unfold to_function in H.
  bind_inv H.
  destruct x_space as [| x0 rest]; [contradiction Hne; reflexivity |].
  cbn [List.length Nat.eqb] in H.
  bind_inv H. bind_inv H. bind_inv H.
  injection H as <-.
  apply make_interp1d_Ok in E1. destruct E1 as [xr [yr [Hxr ->]]].
  apply make_interp1d_Ok in E2. destruct E2 as [xi [yi [Hxi ->]]].
  rewrite Hxs in Hxr, Hxi. injection Hxr as <-. injection Hxi as <-.
  eexists. eexists. split; [reflexivity |]. split; [reflexivity |].
  split; [reflexivity |].
  intros x. cbn [ip_kind ip_x ip_y interpolated_relation].
  rewrite !interp1d_at_fill. cbn [bind].
  unfold outside_span. split; intros Hout.
  - destruct to_zero; cbn [fill_below fill_above boundary_value];
      destruct (PrimFloat.ltb (last xs nan) x);
      destruct (PrimFloat.ltb x (hd nan xs));
      try discriminate Hout; reflexivity.
  - apply orb_false_iff in Hout. destruct Hout as [Hlo Hhi].
    rewrite Hlo, Hhi. reflexivity.
Qed.

Lemma to_function_boundary_policy_witness :
  let rel :=
    interpolated_relation (B := Reference.backend)
      (Interp1d "linear" [0; 1; 2]%float [1; 2; 4]%float 0 0 false)
      (Interp1d "linear" [0; 1; 2]%float [0; 0; 0]%float 0 0 false) in
  to_function (B := Reference.backend) initial_globals [0; 1; 2]%float
    (FSamples (DArray [1; 2; 4]%float)) None true = Ok rel
  /\ rel (DScalar (SFloat (-1))) = Ok (DScalar (SComplex (Complex 0 0)))
  /\ rel (DScalar (SFloat 0.5)) = Ok (DScalar (SComplex (Complex 1.5 0))).
Proof.
  intros rel.
  assert (Hto : to_function (B := Reference.backend) initial_globals [0; 1; 2]%float
                  (FSamples (DArray [1; 2; 4]%float)) None true = Ok rel)
    by (vm_compute; reflexivity).
  split; [exact Hto |].
  destruct (to_function_boundary_policy Reference.backend initial_globals
              [0; 1; 2]%float (FSamples (DArray [1; 2; 4]%float)) None true rel
              [0; 1; 2]%float ltac:(discriminate) eq_refl Hto)
    as [real [imag [_ [_ [_ Hpt]]]]].
  split.
  - exact (proj1 (Hpt (-1)%float) eq_refl).
  - vm_compute. reflexivity.
Defined.

(** * Further properties of the modelled code *)

(** ** Shared lemmas *)

Lemma bind_assoc : forall (A B C : Type) (m : result A) (k : A -> result B)
                          (h : B -> result C),
  bind (bind m k) h = bind m (fun a => bind (k a) h).
Proof. intros A B C [a | e] k h; reflexivity. Qed.

Lemma diff1_nonempty_length : forall g : list float,
  diff1 g <> [] -> (2 <= List.length g)%nat.
Proof.
  intros [| x [| y rest]] H; simpl in *; try (contradiction H; reflexivity); lia.
Qed.

Lemma check_answers_need_two_points : forall (g : list float) (b : bool),
  Function.is_evenly_spaced_domain (PGrid g) = Ok b -> (2 <= List.length g)%nat.
Proof.
  intros g b H. apply diff1_nonempty_length. intros Hnil.
  unfold Function.is_evenly_spaced_domain, np_diff in H.
  rewrite Hnil in H. discriminate H.
Qed.

Lemma init_Ok_inv : forall (B : Backend) (d fc : pyobj) (F : Function.t),
  Function.__init__ d fc = Ok F ->
  Function.is_evenly_spaced_domain d = Ok true
  /\ callable fc = true
  /\ d = PGrid (Function.get_domain F)
  /\ Function.get_function F = Function.as_relation fc.
Proof.
  intros B d fc F H. unfold Function.__init__ in H.
  destruct (Function.is_evenly_spaced_domain d) as [[|] | e] eqn:E;
    cbn [bind negb] in H; try discriminate H.
  destruct d; try discriminate E. cbn [Function.np_array bind] in H.
  destruct (callable fc); cbn [negb] in H; [| discriminate H].
  injection H as <-. repeat split; reflexivity.
Qed.

Lemma init_uneven : forall (B : Backend) (g : list float) (fc : pyobj),
  Function.is_evenly_spaced_domain (PGrid g) = Ok false ->
  Function.__init__ (PGrid g) fc = Raise uneven_domain_error.
Proof.
  intros B g fc H. unfold Function.__init__. rewrite H. reflexivity.
Qed.

Lemma eta_Function : forall F : Function.t,
  Function.Build (Function._dom F) (Function._f F) = F.
Proof. intros [d f]. reflexivity. Qed.

(** ** The constructor and [copy] *)

(** X1.  A Function returned by the constructor has a domain of at least two
    points that passes the spacing check, the domain it was given; its
    relation is the argument, unwrapped when the argument is a Function. *)
Theorem constructor_establishes_invariant :
  forall (B : Backend) (domain function_callable : pyobj) (F : Function.t),
    Function.__init__ domain function_callable = Ok F ->
    well_formed F
    /\ (2 <= List.length (Function.get_domain F))%nat
    /\ domain = PGrid (Function.get_domain F)
    /\ callable function_callable = true
    /\ Function.get_function F = Function.as_relation function_callable.
Proof.
  intros B d fc F H. destruct (init_Ok_inv B d fc F H) as [He [Hc [Hd Hf]]].
  unfold well_formed. rewrite <- Hd. split; [exact He |].
  split; [| repeat split; assumption].
  apply (check_answers_need_two_points _ true). rewrite <- Hd. exact He.
Qed.

Lemma constructor_establishes_invariant_witness :
  well_formed (Function.Build [0; 1; 2]%float identity_relation)
  /\ (2 <= List.length [0; 1; 2]%float)%nat.
Proof.
  destruct (constructor_establishes_invariant Reference.backend
              (PGrid [0; 1; 2]%float) (PCallable identity_relation)
              (Function.Build [0; 1; 2]%float identity_relation) eq_refl)
    as [Hwf [Hlen _]].
  split; [exact Hwf | exact Hlen].
Defined.

(** X2.  On an instance that satisfies the constructor's invariant, [copy]
    returns an equal instance; and a Function passed as the relation of a new
    Function is unwrapped: the new instance stores the relation itself. *)
Theorem copy_round_trip :
  forall (B : Backend) (F : Function.t),
    well_formed F ->
    Function.copy F = Ok F
    /\ forall g : list float,
         Function.is_evenly_spaced_domain (PGrid g) = Ok true ->
         Function.__init__ (PGrid g) (Function.obj F)
         = Ok (Function.Build g (Function.get_function F)).
Proof.
  intros B F Hwf. split.
  - unfold Function.copy. rewrite (init_on_even_grid B _ _ Hwf).
    rewrite eta_Function. reflexivity.
  - intros g Hg. unfold Function.__init__, Function.obj. rewrite Hg. reflexivity.
Qed.

Lemma copy_round_trip_witness :
  Function.copy (B := Reference.backend)
    (Function.Build [0; 1; 2]%float identity_relation)
  = Ok (Function.Build [0; 1; 2]%float identity_relation).
Proof.
  apply (proj1 (copy_round_trip Reference.backend
                  (Function.Build [0; 1; 2]%float identity_relation) eq_refl)).
Defined.

(** ** The operators *)

Lemma operator_number_operand :
  forall (B : Backend) (op : binop) (F : Function.t) (s : scalar),
    well_formed F ->
    Function._is_number (PScalar s) = true ->
    exists h,
      Function.operator op F (PScalar s) = Ok (Some h)
      /\ Function.get_domain h = Function.get_domain F
      /\ forall x, Function.__call__ h x
                   = (let* a := Function.__call__ F x in py_binop op a (DScalar s)).
Proof.
  intros B op F s Hwf Hnum. unfold Function.operator. rewrite Hnum.
  rewrite (init_on_even_grid B _ _ Hwf). cbn [bind].
  eexists. split; [reflexivity |]. split; [reflexivity |].
  intros x. reflexivity.
Qed.

(** X3.  With a number on the right (an [int], a [bool], a [float] or a
    [complex]) each of the five operators returns a new Function on the
    receiver's domain whose value at any [x] is the receiver's value combined
    with the number; the receiver's relation is called first and its
    exception, if any, is the result. *)
Theorem operators_with_a_number :
  forall (B : Backend) (F : Function.t) (s : scalar),
    well_formed F ->
    Function._is_number (PScalar s) = true ->
    forall op : binop,
      exists h,
        match op with
        | Add => Function.__add__ F (PScalar s)
        | Sub => Function.__sub__ F (PScalar s)
        | Mul => Function.__mul__ F (PScalar s)
        | TrueDiv => Function.__truediv__ F (PScalar s)
        | Pow => Function.__pow__ F (PScalar s)
        end = Ok (Some h)
        /\ Function.get_domain h = Function.get_domain F
        /\ forall x, Function.__call__ h x
                     = (let* a := Function.__call__ F x in
                        py_binop op a (DScalar s)).
Proof.
  intros B F s Hwf Hnum op.
  destruct op; apply operator_number_operand; assumption.
Qed.

Lemma operators_with_a_number_witness :
  exists h,
    Function.__mul__ (B := Reference.backend)
      (Function.Build [0; 1; 2]%float identity_relation) (PScalar (SFloat 3))
    = Ok (Some h)
    /\ Function.__call__ h (DScalar (SFloat 2)) = Ok (DScalar (SFloat 6)).
Proof.
  destruct (operators_with_a_number Reference.backend
              (Function.Build [0; 1; 2]%float identity_relation) (SFloat 3)
              eq_refl eq_refl Mul) as [h [Hop [_ Hcall]]].
  exists h. split; [exact Hop |]. rewrite Hcall. vm_compute. reflexivity.
Defined.

(** X4.  With a Function on the right, the result of any of the five
    operators evaluates lazily and pointwise at every input, inside or
    outside either domain: the receiver's relation is called, then the
    operand's, then the values are combined; the operand's domain plays no
    role. *)
Theorem operators_are_lazy_and_pointwise :
  forall (B : Backend) (op : binop) (F : Function.t) (gdom : list float)
         (g : relation),
    well_formed F ->
    exists h,
      Function.operator op F (PFunction gdom g) = Ok (Some h)
      /\ Function.get_domain h = Function.get_domain F
      /\ forall x, Function.__call__ h x
                   = (let* a := Function.__call__ F x in
                      let* b := g x in
                      py_binop op a b).
Proof.
  intros B op F gdom g Hwf. unfold Function.operator.
  rewrite (init_on_even_grid B _ _ Hwf). cbn [bind].
  eexists. split; [reflexivity |]. split; [reflexivity |].
  intros x. reflexivity.
Qed.

Lemma operators_are_lazy_and_pointwise_witness :
  exists h,
    Function.__pow__ (B := Reference.backend)
      (Function.Build [0; 1; 2]%float identity_relation)
      (PFunction [5; 7]%float identity_relation)
    = Ok (Some h)
    /\ Function.get_domain h = [0; 1; 2]%float.
Proof.
  destruct (operators_are_lazy_and_pointwise Reference.backend Pow
              (Function.Build [0; 1; 2]%float identity_relation)
              [5; 7]%float identity_relation eq_refl) as [h [Hop [Hdom _]]].
  exists h. split; [exact Hop | exact Hdom].
Defined.

(** ** Instances with an uneven domain *)

(** X5.  [UnevenlySpacedFunction] accepts every grid, also an uneven one.
    The inherited methods build their result with the [Function] constructor,
    so on an instance whose domain fails the spacing check [copy], [apply],
    [composeWith], [shift] (domain kept) and every operator with a Function or
    a number raise the uneven-domain exception. *)
Theorem uneven_instances_do_not_compose :
  forall (B : Backend) (g : list float) (f : relation),
    Function.is_evenly_spaced_domain (PGrid g) = Ok false ->
    UnevenlySpacedFunction.__init__ g (PCallable f) = Ok (Function.Build g f)
    /\ Function.copy (Function.Build g f) = Raise uneven_domain_error
    /\ (forall r, Function.apply (Function.Build g f) r = Raise uneven_domain_error)
    /\ (forall r, Function.composeWith (Function.Build g f) r
                  = Raise uneven_domain_error)
    /\ (forall offset, Function.shift (Function.Build g f) offset false
                       = Raise uneven_domain_error)
    /\ (forall op other,
          is_Function other || Function._is_number other = true ->
          Function.operator op (Function.Build g f) other
          = Raise uneven_domain_error).
Proof.
  intros B g f H. split; [reflexivity |].
  split; [apply init_uneven; exact H |].
  split; [intros r; apply init_uneven; exact H |].
  split; [intros r; apply init_uneven; exact H |].
  split; [intros offset; apply init_uneven; exact H |].
  intros op other Hother. unfold Function.operator.
  destruct other; cbn [is_Function orb] in Hother;
    try rewrite Hother; cbn [Function._dom];
    rewrite (init_uneven B g _ H); reflexivity.
Qed.

Lemma uneven_instances_do_not_compose_witness :
  UnevenlySpacedFunction.__init__ (B := Reference.backend) [0; 1; 3]%float
    (PCallable identity_relation)
  = Ok (Function.Build [0; 1; 3]%float identity_relation)
  /\ Function.copy (B := Reference.backend)
       (Function.Build [0; 1; 3]%float identity_relation)
     = Raise uneven_domain_error.
Proof.
  destruct (uneven_instances_do_not_compose Reference.backend [0; 1; 3]%float
              identity_relation ltac:(vm_compute; reflexivity))
    as [Hinit [Hcopy _]].
  split; [exact Hinit | exact Hcopy].
Defined.

(** ** [apply], [composeWith] and [shift] *)

(** X6.  On a well-formed instance [apply(g)] and [composeWith(g)] return a
    Function on the same domain computing [g(f(x))] and [f(g(x))]; applying
    [g] to the values commutes with substituting [k] for the argument:
    [f.composeWith(k).apply(g)] and [f.apply(g).composeWith(k)] agree at every
    input, exceptions included. *)
Theorem apply_and_composeWith :
  forall (B : Backend) (F : Function.t) (g k : relation),
    well_formed F ->
    exists ha hc hca hac,
      Function.apply F g = Ok ha
      /\ Function.composeWith F k = Ok hc
      /\ Function.apply hc g = Ok hca
      /\ Function.composeWith ha k = Ok hac
      /\ Function.get_domain ha = Function.get_domain F
      /\ Function.get_domain hc = Function.get_domain F
      /\ (forall x, Function.__call__ ha x = bind (Function.__call__ F x) g)
      /\ (forall x, Function.__call__ hc x = bind (k x) (Function.__call__ F))
      /\ Function.eval ha = bind (Function.eval F) g
      /\ (forall x, Function.__call__ hca x = Function.__call__ hac x).
Proof.
  intros B F g k Hwf.
  set (f := Function._f F). set (dom := Function._dom F).
  exists (Function.Build dom (fun x => let* y := f x in g y)).
  exists (Function.Build dom (fun x => let* y := k x in f y)).
  exists (Function.Build dom (fun x => let* y := (let* z := k x in f z) in g y)).
  exists (Function.Build dom (fun x => let* y := k x in let* z := f y in g z)).
  unfold Function.apply, Function.composeWith. cbn [Function._dom Function._f].
  fold dom f. unfold well_formed, Function.get_domain in Hwf. fold dom in Hwf.
  rewrite !(init_on_even_grid B _ _ Hwf).
  repeat (split; [reflexivity |]).
  intros x. unfold Function.__call__. cbn [Function._f].
  apply bind_assoc.
Qed.

Lemma apply_and_composeWith_witness :
  exists ha,
    Function.apply (B := Reference.backend)
      (Function.Build [0; 1; 2]%float identity_relation)
      (fun y => Reference.binop_data Mul y (DScalar (SFloat 2)))
    = Ok ha
    /\ Function.eval ha = Ok (DArray [0; 2; 4]%float).
Proof.
  destruct (apply_and_composeWith Reference.backend
              (Function.Build [0; 1; 2]%float identity_relation)
              (fun y => Reference.binop_data Mul y (DScalar (SFloat 2)))
              identity_relation eq_refl)
    as [ha [hc [hca [hac [Ha [_ [_ [_ [_ [_ [_ [_ [Heval _]]]]]]]]]]]]].
  exists ha. split; [exact Ha |]. rewrite Heval. vm_compute. reflexivity.
Defined.

(** X7.  [shift(offset)] with the domain kept is [composeWith] the
    translation [x - offset].  With [domain=True] the stored domain is the old
    one with the offset added to every point, and the shift succeeds exactly
    when that grid still passes the spacing check. *)
Theorem shift_is_a_translation :
  forall (B : Backend) (F : Function.t) (offset : float),
    Function.shift F offset false
    = Function.composeWith F (fun x => py_binop Sub x (DScalar (SFloat offset)))
    /\ (forall h,
          Function.shift F offset true = Ok h <->
          (Function.is_evenly_spaced_domain
             (PGrid (map (fun x => (x + offset)%float) (Function.get_domain F)))
           = Ok true
           /\ h = Function.Build
                    (map (fun x => (x + offset)%float) (Function.get_domain F))
                    (fun x =>
                       let* y := py_binop Sub x (DScalar (SFloat offset)) in
                       Function.get_function F y))).
Proof.
  intros B F offset. split; [reflexivity |].
  intros h. unfold Function.shift. split.
  - intros H. destruct (init_Ok_inv B _ _ _ H) as [He [_ [Hd Hf]]].
    split; [exact He |].
    injection Hd as Hd. destruct h as [hd hf]. cbn in Hd, Hf. subst. reflexivity.
  - intros [He ->]. rewrite (init_on_even_grid B _ _ He). reflexivity.
Qed.

(** ** [find_zeros] and products that cannot be negative *)

Lemma SFltb_zero_sign : forall (s : bool) (x : spec_float),
  match x with
  | S754_zero _ | S754_nan => True
  | S754_infinity sx | S754_finite sx _ _ => sx = false
  end ->
  SFltb x (S754_zero s) = false.
Proof.
  intros s [sx | sx | | sx m e] H; cbn in *; try subst sx; reflexivity.
Qed.

Lemma binary_round_aux_sign : forall prec emax sx mx ex lx,
  match binary_round_aux prec emax sx mx ex lx with
  | S754_zero s | S754_infinity s | S754_finite s _ _ => s = sx
  | S754_nan => True
  end.
Proof.
  intros. unfold binary_round_aux.
  destruct (shr_fexp prec emax mx ex lx) as [mrs' e'].
  destruct (shr_fexp prec emax _ e' loc_Exact) as [mrs'' e''].
  destruct (shr_m mrs''); [reflexivity | | exact I].
  destruct (Z.leb e'' (emax - prec)); reflexivity.
Qed.

(** A square is never negative. *)
Lemma mul_self_not_negative : forall x : float,
  PrimFloat.ltb (x * x) 0 = false.
Proof.
  intros x. rewrite FloatAxioms.ltb_spec, FloatAxioms.mul_spec.
  change (Prim2SF 0) with (S754_zero false).
  apply SFltb_zero_sign.
  unfold SF64mul, SFmul.
  destruct (Prim2SF x) as [sx | sx | | sx m e]; try exact I.
  - destruct sx; reflexivity.
  - pose proof (binary_round_aux_sign prec emax (xorb sx sx)
                  (Z.pos (m * m)) (e + e) loc_Exact) as H.
    destruct (binary_round_aux prec emax (xorb sx sx) (Z.pos (m * m)) (e + e)
                loc_Exact);
      try exact I; rewrite H; destruct sx; reflexivity.
Qed.

(** The product of a zero with anything is a zero or not a number. *)
Lemma zero_mul_not_negative : forall z y : float,
  PrimFloat.eqb z 0 = true -> PrimFloat.ltb (z * y) 0 = false.
Proof.
  intros z y Hz. rewrite FloatAxioms.eqb_spec in Hz. rewrite FloatAxioms.ltb_spec, FloatAxioms.mul_spec.
  change (Prim2SF 0) with (S754_zero false) in *.
  apply SFltb_zero_sign.
  unfold SF64mul, SFmul.
  destruct (Prim2SF z) as [sz | sz | | sz m e]; cbn in Hz; try discriminate Hz.
  - destruct (Prim2SF y); exact I.
  - destruct sz; discriminate Hz.
  - destruct sz; discriminate Hz.
Qed.

Lemma sign_flip_scan_zero_reference :
  forall (g : float -> float) (pts : list float) (ref : float),
    PrimFloat.eqb ref 0 = true -> sign_flip_scan g ref pts = [].
Proof.
  induction pts as [| p rest IH]; intros ref Hz; simpl.
  - reflexivity.
  - rewrite (zero_mul_not_negative ref (g p) Hz). apply IH. exact Hz.
Qed.

Lemma subseq_length : forall (A : Type) (l1 l2 : list A),
  subseq l1 l2 -> (List.length l1 <= List.length l2)%nat.
Proof.
  intros A l1 l2 H. induction H; simpl; lia.
Qed.

Lemma find_zeros_real_samples :
  forall (B : Backend) (f : relation) (g : float -> float) (d0 : float)
         (rest : list float),
    real_samples f g (d0 :: rest) ->
    Function.find_zeros (Function.Build (d0 :: rest) f)
    = Ok (sign_flip_scan g (g d0) (d0 :: rest)).
Proof.
  intros B f g d0 rest Hg.
  unfold Function.find_zeros. cbn [Function._dom Function._f].
  cbn [np_index nth_error bind].
  destruct (Hg d0 (or_introl eq_refl)) as [d [Hd Hre]].
  rewrite Hd. cbn [bind].
  rewrite (find_zeros_loop_scan B f g (d0 :: rest) d (g d0) [] Hre Hg).
  reflexivity.
Qed.

(** X8.  When the real part of the first sample equals zero, the reference
    of the scan stays zero and no product is negative: [find_zeros] returns
    no root, whatever sign changes the later samples have. *)
Theorem find_zeros_blind_after_zero_first_sample :
  forall (B : Backend) (f : relation) (g : float -> float) (d0 : float)
         (rest : list float),
    real_samples f g (d0 :: rest) ->
    PrimFloat.eqb (g d0) 0 = true ->
    Function.find_zeros (Function.Build (d0 :: rest) f) = Ok [].
Proof.
  intros B f g d0 rest Hg Hz.
  rewrite (find_zeros_real_samples B f g d0 rest Hg).
  rewrite (sign_flip_scan_zero_reference g (d0 :: rest) (g d0) Hz).
  reflexivity.
Qed.

Lemma find_zeros_blind_after_zero_first_sample_witness :
  Function.find_zeros (B := Reference.backend)
    (Function.Build [0; 1; 2; 3]%float
       (fun x => Reference.binop_data Mul x
                   (DScalar (SFloat 0))))
  = Ok [].
Proof.
  apply (find_zeros_blind_after_zero_first_sample Reference.backend _
           (fun x => (x * 0)%float)).
  - intros el _. eexists. split; reflexivity.
  - vm_compute. reflexivity.
Defined.

(** X9.  The first domain point is never reported: it is compared with
    itself, and a square is not negative.  The roots are a sub-sequence of
    the domain without its first point, so there are fewer roots than
    domain points. *)
Theorem find_zeros_never_reports_first_point :
  forall (B : Backend) (f : relation) (g : float -> float) (d0 : float)
         (rest : list float),
    real_samples f g (d0 :: rest) ->
    exists roots,
      Function.find_zeros (Function.Build (d0 :: rest) f) = Ok roots
      /\ roots = sign_flip_scan g (g d0) rest
      /\ subseq roots rest
      /\ (List.length roots < List.length (d0 :: rest))%nat.
Proof.
  intros B f g d0 rest Hg.
  exists (sign_flip_scan g (g d0) rest).
  rewrite (find_zeros_real_samples B f g d0 rest Hg).
  cbn [sign_flip_scan]. rewrite mul_self_not_negative.
  split; [reflexivity |]. split; [reflexivity |].
  split; [apply subseq_sign_flip_scan |].
  pose proof (subseq_length _ _ _ (subseq_sign_flip_scan g rest (g d0))).
  simpl. lia.
Qed.

Lemma find_zeros_never_reports_first_point_witness :
  exists roots,
    Function.find_zeros (B := Reference.backend)
      (Function.Build [-1; 0; 1]%float identity_relation) = Ok roots
    /\ subseq roots [0; 1]%float.
Proof.
  destruct (find_zeros_never_reports_first_point Reference.backend
              identity_relation (fun x => x) (-1)%float [0; 1]%float)
    as [roots [Hfz [_ [Hsub _]]]].
  - intros el _. exists (DScalar (SFloat el)). split; reflexivity.
  - exists roots. split; [exact Hfz | exact Hsub].
Defined.

(** ** [evaluate] *)

Lemma map_result_pointwise :
  forall (A C : Type) (f : A -> result C) (h : A -> C) (l : list A),
    (forall x, In x l -> f x = Ok (h x)) ->
    map_result f l = Ok (map h l).
Proof.
  intros A C f h l. induction l as [| a l IH]; intros H; simpl.
  - reflexivity.
  - rewrite (H a (or_introl eq_refl)). cbn [bind].
    rewrite IH; [reflexivity |]. intros x Hx. apply H. right. exact Hx.
Qed.

Lemma floats_of_floats : forall (g : float -> float) (l : list float),
  floats_of (map (fun x => DScalar (SFloat (g x))) l) = Some (map g l).
Proof.
  intros g l. induction l as [| a l IH]; simpl.
  - reflexivity.
  - rewrite IH. reflexivity.
Qed.

Lemma evaluate_wrong_count :
  forall (B : Backend) (domain : list float) (d : data),
    data_len d <> Some (List.length domain) ->
    evaluate domain (FSamples d)
    = Raise (RuntimeError "Cannot evaluate, unknown type").
Proof.
  intros B domain d H. unfold evaluate.
  destruct (data_len d) as [n |]; [| reflexivity].
  destruct (List.length domain =? n)%nat eqn:E; [| reflexivity].
  apply Nat.eqb_eq in E. subst n. contradiction H. reflexivity.
Qed.

Lemma evaluate_float_callable :
  forall (B : Backend) (domain : list float) (f : relation) (g : float -> float),
    (forall x, In x domain ->
               f (DScalar (SFloat x)) = Ok (DScalar (SFloat (g x)))) ->
    evaluate domain (FCallable f) = Ok (DArray (map g domain)).
Proof.
  intros B domain f g H. unfold evaluate.
  rewrite (map_result_pointwise _ _ _ (fun x => DScalar (SFloat (g x))) domain H).
  cbn [bind]. unfold np_array_data. rewrite floats_of_floats. reflexivity.
Qed.

(** X10.  [evaluate] returns given samples unchanged when there is exactly
    one per domain point and raises "Cannot evaluate, unknown type" for any
    other count and for a scalar; a callable returning floats is sampled at
    every domain point, in order, giving one sample per point. *)
Theorem evaluate_checks_the_sample_count :
  forall (B : Backend) (domain : list float),
    (forall d, data_len d = Some (List.length domain) ->
               evaluate domain (FSamples d) = Ok d)
    /\ (forall d, data_len d <> Some (List.length domain) ->
                  evaluate domain (FSamples d)
                  = Raise (RuntimeError "Cannot evaluate, unknown type"))
    /\ (forall (f : relation) (g : float -> float),
          (forall x, In x domain ->
                     f (DScalar (SFloat x)) = Ok (DScalar (SFloat (g x)))) ->
          evaluate domain (FCallable f) = Ok (DArray (map g domain))).
Proof.
  intros B domain. split; [| split].
  - intros d H. unfold evaluate. rewrite H, Nat.eqb_refl. reflexivity.
  - intros d H. apply evaluate_wrong_count. exact H.
  - intros f g H. apply evaluate_float_callable. exact H.
Qed.

Lemma evaluate_checks_the_sample_count_witness :
  evaluate (B := Reference.backend) [0; 1; 2]%float (FSamples (DArray [5; 6]%float))
  = Raise (RuntimeError "Cannot evaluate, unknown type")
  /\ evaluate (B := Reference.backend) [0; 1; 2]%float (FCallable identity_relation)
     = Ok (DArray [0; 1; 2]%float).
Proof.
  destruct (evaluate_checks_the_sample_count Reference.backend [0; 1; 2]%float)
    as [_ [Hbad Hcall]].
  split.
  - apply Hbad. discriminate.
  - apply (Hcall identity_relation (fun x => x)). intros x _. reflexivity.
Defined.

(** ** Reconstruction into a Function *)

Lemma init_short_domain : forall (B : Backend) (g : list float) (fc : pyobj),
  (List.length g <= 1)%nat -> Function.__init__ (PGrid g) fc = Raise IndexError.
Proof.
  intros B g fc H. unfold Function.__init__, Function.is_evenly_spaced_domain, np_diff.
  rewrite (diff1_short g H). reflexivity.
Qed.

(** X11.  No Function is built on a domain with fewer than two points:
    [Function.to_function] and [remesh] raise on such a grid.  On the empty
    grid the reconstruction itself succeeds with the zero relation and the
    constructor then raises [IndexError]. *)
Theorem no_function_on_short_domains :
  forall (B : Backend) (G : globals),
    (forall feval, Function.to_function G [] feval = Raise IndexError)
    /\ (forall F samples,
          Function.__call__ F (DArray []) = Ok samples ->
          Function.remesh G F [] = Raise IndexError)
    /\ (forall domain feval,
          (List.length domain <= 1)%nat ->
          exists e, Function.to_function G domain feval = Raise e)
    /\ (forall F mesh,
          (List.length mesh <= 1)%nat ->
          exists e, Function.remesh G F mesh = Raise e).
Proof.
  intros B G. split; [| split; [| split]].
  - intros feval. unfold Function.to_function.
    destruct feval; reflexivity.
  - intros F samples H. unfold Function.remesh.
    unfold Function.__call__ in H. rewrite H. reflexivity.
  - intros domain feval H. unfold Function.to_function.
    destruct (to_function G domain feval None true) as [rel | e]; cbn [bind].
    + rewrite (init_short_domain B domain _ H). eauto.
    + eauto.
  - intros F mesh H. unfold Function.remesh.
    destruct (Function._f F (DArray mesh)) as [samples | e]; cbn [bind]; [| eauto].
    destruct (to_function G mesh (FSamples samples) None true) as [rel | e];
      cbn [bind]; [| eauto].
    rewrite (init_short_domain B mesh _ H). eauto.
Qed.

Lemma interp1d_at_value :
  forall (B : Backend) (kind : string) (xs ys : list float) (fb fa x : float),
    interp1d_at (Interp1d kind xs ys fb fa false) x
    = Ok (interp1d_value (Interp1d kind xs ys fb fa false) x).
Proof.
  intros. set (ip := Interp1d kind xs ys fb fa false).
  unfold interp1d_at, interp1d_value.
  change (ip_bounds_error ip) with false. cbn [andb].
  destruct (above_bounds ip x), (below_bounds ip x); reflexivity.
Qed.

(** A successful reconstruction over a non-empty grid is the recombination
    of two interpolants over the sorted abscissas, with the fill values of
    the policy and without bounds errors. *)
Lemma to_function_Ok_interpolants :
  forall (B : Backend) (G : globals) (x_space : list float) (feval : feval_arg)
         (interpolation : option string) (to_zero : bool) (rel : relation)
         (xs : list float),
    x_space <> [] ->
    sorted_abscissas x_space = Ok xs ->
    to_function G x_space feval interpolation to_zero = Ok rel ->
    exists kind yr yi,
      rel = interpolated_relation
              (Interp1d kind xs yr (re (boundary_value to_zero))
                 (re (boundary_value to_zero)) false)
              (Interp1d kind xs yi (re (boundary_value to_zero))
                 (re (boundary_value to_zero)) false).
Proof.
  intros B G x_space feval interpolation to_zero rel xs Hne Hxs H.
  unfold to_function in H.
  bind_inv H.
  destruct x_space as [| x0 rest]; [contradiction Hne; reflexivity |].
  cbn [List.length Nat.eqb] in H.
  bind_inv H. bind_inv H. bind_inv H.
  injection H as <-.
  apply make_interp1d_Ok in E1. destruct E1 as [xr [yr [Hxr ->]]].
  apply make_interp1d_Ok in E2. destruct E2 as [xi [yi [Hxi ->]]].
  rewrite Hxs in Hxr, Hxi. injection Hxr as <-. injection Hxi as <-.
  exists (match interpolation with
          | Some k => k
          | None => FUNCTION_INTERPOLATION_TYPE G
          end), yr, yi.
  destruct to_zero; reflexivity.
Qed.

Lemma interpolated_relation_outside :
  forall (B : Backend) (kind : string) (xs yr yi : list float) (fill x : float),
    outside_span xs x = true ->
    interpolated_relation (Interp1d kind xs yr fill fill false)
      (Interp1d kind xs yi fill fill false) (DScalar (SFloat x))
    = Ok (DScalar (SComplex (recombine fill fill))).
Proof.
  intros B kind xs yr yi fill x Hout. cbn [interpolated_relation].
  rewrite !interp1d_at_value. cbn [bind].
  unfold interp1d_value, above_bounds, below_bounds. cbn [ip_x ip_fill_above ip_fill_below].
  unfold outside_span in Hout.
  destruct (PrimFloat.ltb (last xs nan) x);
    destruct (PrimFloat.ltb x (hd nan xs));
    try discriminate Hout; reflexivity.
Qed.

Lemma nonempty_of_two_points : forall (A : Type) (l : list A),
  (2 <= List.length l)%nat -> l <> [].
Proof.
  intros A [| a l] H; [simpl in H; lia | discriminate].
Qed.

(** X12.  A Function returned by [remesh] has the new mesh as its domain,
    and it evaluates to [0+0j] at every point below the first or above the
    last point of the sorted mesh, whatever the original relation returns
    there. *)
Theorem remesh_vanishes_outside_the_mesh :
  forall (B : Backend) (G : globals) (F F' : Function.t) (mesh xs : list float),
    Function.remesh G F mesh = Ok F' ->
    sorted_abscissas mesh = Ok xs ->
    Function.get_domain F' = mesh
    /\ well_formed F'
    /\ forall x, outside_span xs x = true ->
                 Function.__call__ F' (DScalar (SFloat x))
                 = Ok (DScalar (SComplex (Complex 0 0))).
Proof.
  intros B G F F' mesh xs H Hxs. unfold Function.remesh in H.
  bind_inv H. bind_inv H.
  destruct (init_Ok_inv B _ _ _ H) as [He [_ [Hd Hf]]].
  injection Hd as Hd. split; [symmetry; exact Hd |].
  split; [unfold well_formed; rewrite <- Hd; exact He |].
  intros x Hout.
  assert (Hne : mesh <> []).
  { apply nonempty_of_two_points, (check_answers_need_two_points _ true), He. }
  destruct (to_function_Ok_interpolants B G mesh _ None true a0 xs Hne Hxs E0)
    as [kind [yr [yi Hrel]]].
  unfold Function.__call__. unfold Function.get_function in Hf. rewrite Hf.
  cbn [Function.as_relation]. rewrite Hrel.
  apply (interpolated_relation_outside B kind xs yr yi 0 x Hout).
Qed.

Lemma remesh_vanishes_outside_the_mesh_witness :
  exists F',
    Function.remesh (B := Reference.backend) initial_globals
      (Function.Build [0; 1; 2; 3]%float identity_relation) [1; 2]%float = Ok F'
    /\ Function.__call__ F' (DScalar (SFloat 3))
       = Ok (DScalar (SComplex (Complex 0 0))).
Proof.
  destruct (Function.remesh (B := Reference.backend) initial_globals
              (Function.Build [0; 1; 2; 3]%float identity_relation) [1; 2]%float)
    as [F' | e] eqn:E; [| vm_compute in E; discriminate E].
  exists F'. split; [reflexivity |].
  apply (proj2 (proj2 (remesh_vanishes_outside_the_mesh Reference.backend
                         initial_globals _ F' [1; 2]%float [1; 2]%float
                         E eq_refl))).
  vm_compute. reflexivity.
Defined.

(** X13.  [reinterpolate] keeps the domain and does not run the
    constructor's check.  On a non-empty domain the new relation evaluates to
    [0+0j] outside the span of the domain, whatever the replaced relation
    returned there; on an empty domain it is the zero relation. *)
Theorem reinterpolate_cuts_off_outside_the_domain :
  forall (B : Backend) (G : globals) (F : Function.t),
    (Function.get_domain F = [] ->
     Function.reinterpolate G F = Ok (Function.Build [] zero_relation))
    /\ (forall F' xs,
          Function.get_domain F <> [] ->
          sorted_abscissas (Function.get_domain F) = Ok xs ->
          Function.reinterpolate G F = Ok F' ->
          Function.get_domain F' = Function.get_domain F
          /\ forall x, outside_span xs x = true ->
                       Function.__call__ F' (DScalar (SFloat x))
                       = Ok (DScalar (SComplex (Complex 0 0)))).
Proof.
  intros B G F. split.
  - intros Hd. unfold Function.reinterpolate. unfold Function.get_domain in Hd.
    rewrite Hd. reflexivity.
  - intros F' xs Hne Hxs H. unfold Function.reinterpolate in H.
    bind_inv H. injection H as <-. split; [reflexivity |].
    intros x Hout.
    destruct (to_function_Ok_interpolants B G _ _ None true a xs Hne Hxs E)
      as [kind [yr [yi Hrel]]].
    unfold Function.__call__. cbn [Function._f]. rewrite Hrel.
    apply (interpolated_relation_outside B kind xs yr yi 0 x Hout).
Qed.

Lemma reinterpolate_cuts_off_outside_the_domain_witness :
  exists F',
    Function.reinterpolate (B := Reference.backend) initial_globals
      (Function.Build [0; 1; 2]%float identity_relation) = Ok F'
    /\ Function.__call__ F' (DScalar (SFloat 5))
       = Ok (DScalar (SComplex (Complex 0 0))).
Proof.
  destruct (Function.reinterpolate (B := Reference.backend) initial_globals
              (Function.Build [0; 1; 2]%float identity_relation))
    as [F' | e] eqn:E; [| vm_compute in E; discriminate E].
  exists F'. split; [reflexivity |].
  apply (proj2 (proj2 (reinterpolate_cuts_off_outside_the_domain
                         Reference.backend initial_globals
                         (Function.Build [0; 1; 2]%float identity_relation))
                  F' [0; 1; 2]%float ltac:(discriminate) eq_refl E)).
  vm_compute. reflexivity.
Defined.

(** X14.  On a well-formed Function the class method [from_function] builds
    what [reinterpolate] assigns: the same domain and the same reconstructed
    relation, and the same exception when the reconstruction fails. *)
Theorem from_function_is_reinterpolate :
  forall (B : Backend) (G : globals) (F : Function.t),
    well_formed F ->
    Function.from_function G F = Function.reinterpolate G F.
Proof.
  intros B G F Hwf.
  unfold Function.from_function, Function.to_function, Function.reinterpolate,
    Function.get_domain, Function.get_function.
  destruct (to_function G (Function._dom F) (FCallable (Function._f F)) None true)
    as [rel | e]; cbn [bind]; [| reflexivity].
  apply (init_on_even_grid B _ _ Hwf).
Qed.

Lemma from_function_is_reinterpolate_witness :
  Function.from_function (B := Reference.backend) initial_globals
    (Function.Build [0; 1; 2]%float identity_relation)
  = Function.reinterpolate (B := Reference.backend) initial_globals
      (Function.Build [0; 1; 2]%float identity_relation).
Proof.
  apply (from_function_is_reinterpolate Reference.backend initial_globals
           (Function.Build [0; 1; 2]%float identity_relation) eq_refl).
Defined.

Lemma map_result_total :
  forall (A C : Type) (h : A -> C) (l : list A),
    map_result (fun x => Ok (h x)) l = Ok (map h l).
Proof.
  intros. apply map_result_pointwise. intros x _. reflexivity.
Qed.

Lemma map_combine_map : forall (A C D E : Type) (p : A -> C) (q : A -> D)
                               (k : C * D -> E) (l : list A),
  map k (combine (map p l) (map q l)) = map (fun a => k (p a, q a)) l.
Proof.
  intros. induction l as [| a l IH]; simpl; [reflexivity | rewrite IH; reflexivity].
Qed.

(** X15.  A relation reconstructed over a non-empty grid is vectorised: on an
    array of points it never raises and returns the complex array of its
    values at the single points, one per point and in order. *)
Theorem reconstructed_relation_is_vectorised :
  forall (B : Backend) (G : globals) (x_space : list float) (feval : feval_arg)
         (interpolation : option string) (to_zero : bool) (rel : relation)
         (xs : list float),
    x_space <> [] ->
    sorted_abscissas x_space = Ok xs ->
    to_function G x_space feval interpolation to_zero = Ok rel ->
    exists value : float -> complex,
      (forall v, rel (DScalar (SFloat v)) = Ok (DScalar (SComplex (value v))))
      /\ (forall vs, rel (DArray vs) = Ok (DCArray (map value vs))).
Proof.
  intros B G x_space feval interpolation to_zero rel xs Hne Hxs H.
  destruct (to_function_Ok_interpolants B G x_space feval interpolation to_zero
              rel xs Hne Hxs H) as [kind [yr [yi ->]]].
  set (fill := re (boundary_value to_zero)).
  set (real := Interp1d kind xs yr fill fill false).
  set (imag := Interp1d kind xs yi fill fill false).
  exists (fun v => recombine (interp1d_value real v) (interp1d_value imag v)).
  split.
  - intros v. cbn [interpolated_relation]. unfold real, imag.
    rewrite !interp1d_at_value. reflexivity.
  - intros vs. cbn [interpolated_relation].
    assert (Hr : map_result (interp1d_at real) vs = Ok (map (interp1d_value real) vs)).
    { apply map_result_pointwise. intros v _. apply interp1d_at_value. }
    assert (Hi : map_result (interp1d_at imag) vs = Ok (map (interp1d_value imag) vs)).
    { apply map_result_pointwise. intros v _. apply interp1d_at_value. }
    rewrite Hr, Hi. cbn [bind]. rewrite map_combine_map. reflexivity.
Qed.

Lemma reconstructed_relation_is_vectorised_witness :
  exists value : float -> complex,
    forall vs,
      interpolated_relation (B := Reference.backend)
        (Interp1d "linear" [0; 1; 2]%float [1; 2; 4]%float 0 0 false)
        (Interp1d "linear" [0; 1; 2]%float [0; 0; 0]%float 0 0 false)
        (DArray vs)
      = Ok (DCArray (map value vs)).
Proof.
  destruct (reconstructed_relation_is_vectorised Reference.backend initial_globals
              [0; 1; 2]%float (FSamples (DArray [1; 2; 4]%float)) None true
              (interpolated_relation (B := Reference.backend)
                 (Interp1d "linear" [0; 1; 2]%float [1; 2; 4]%float 0 0 false)
                 (Interp1d "linear" [0; 1; 2]%float [0; 0; 0]%float 0 0 false))
              [0; 1; 2]%float ltac:(discriminate) eq_refl
              ltac:(vm_compute; reflexivity))
    as [value [_ Hvec]].
  exists value. exact Hvec.
Defined.

(** ** The global interpolation kind *)

(** X16.  Setting the kind and then setting the returned previous kind
    restores the original state, and the second call returns the kind that
    was set in between. *)
Theorem set_interpolation_type_restores :
  forall (k : string) (G : globals),
    let (previous, G1) := set_interpolation_type k G in
    set_interpolation_type previous G1 = (k, G).
Proof.
  intros k [kind]. reflexivity.
Qed.

(** ** [ParametrizedFunction] with factories *)

(** X17.  For an instance that carries two factories, [reparametrize] calls
    both with the new parameter vector and constructs again: when the domain
    factory yields an evenly spaced grid and the relation factory a callable,
    the new instance has that grid and relation, the new parameters, and the
    names and factories of the old one. *)
Theorem reparametrize_rebuilds_from_the_factories :
  forall (B : Backend) (sigma : ParametrizedFunction.cells)
         (self : ParametrizedFunction.t) (params : list float)
         (fac ffac : list float -> result pyobj) (g : list float) (r : relation),
    ParametrizedFunction.get_domain_factory self = PFactory fac ->
    ParametrizedFunction.get_function_factory self = PFactory ffac ->
    List.length (ParametrizedFunction.get_param_names self) = List.length params ->
    fac params = Ok (PGrid g) ->
    Function.is_evenly_spaced_domain (PGrid g) = Ok true ->
    ffac params = Ok (PCallable r) ->
    exists self',
      fst (ParametrizedFunction.reparametrize sigma self params) = Ok self'
      /\ ParametrizedFunction.get_params self' = params
      /\ ParametrizedFunction.get_param_names self'
         = ParametrizedFunction.get_param_names self
      /\ ParametrizedFunction.get_domain_factory self'
         = ParametrizedFunction.get_domain_factory self
      /\ ParametrizedFunction.get_function_factory self'
         = ParametrizedFunction.get_function_factory self
      /\ ParametrizedFunction.base self' = Function.Build g r.
Proof.
  intros B sigma self params fac ffac g r Hdf Hff Hlen Hfac Hg Hffac.
  unfold ParametrizedFunction.get_domain_factory,
    ParametrizedFunction.get_function_factory,
    ParametrizedFunction.get_param_names in *.
  unfold ParametrizedFunction.reparametrize, ParametrizedFunction.__init__.
  rewrite Hdf, Hff, read_fresh. cbn [callable negb].
  rewrite read_fresh. apply Nat.eqb_eq in Hlen. rewrite Hlen. cbn [negb fst].
  cbn [ParametrizedFunction.call]. rewrite Hfac, Hffac. cbn [bind].
  rewrite (init_on_even_grid B g r Hg). cbn [bind].
  eexists. split; [reflexivity |]. repeat split.
Qed.

Lemma reparametrize_rebuilds_from_the_factories_witness :
  exists self',
    fst (ParametrizedFunction.reparametrize (B := Reference.backend) []
           (ParametrizedFunction.Build
              (Function.Build [0; 1; 2]%float identity_relation)
              (PFactory (fun p => Ok (PGrid (np_linspace 0 (nth 0 p nan) 3))))
              (PFactory (fun p => Ok (PCallable identity_relation)))
              ["L"%string] [2%float])
           [4%float])
    = Ok self'
    /\ ParametrizedFunction.get_params self' = [4%float]
    /\ Function.get_domain (ParametrizedFunction.base self') = [0; 2; 4]%float.
Proof.
  destruct (reparametrize_rebuilds_from_the_factories Reference.backend []
              (ParametrizedFunction.Build
                 (Function.Build [0; 1; 2]%float identity_relation)
                 (PFactory (fun p => Ok (PGrid (np_linspace 0 (nth 0 p nan) 3))))
                 (PFactory (fun p => Ok (PCallable identity_relation)))
                 ["L"%string] [2%float])
              [4%float] _ _ [0; 2; 4]%float identity_relation
              eq_refl eq_refl eq_refl ltac:(vm_compute; reflexivity)
              ltac:(vm_compute; reflexivity) eq_refl)
    as [self' [Hre [Hp [_ [_ [_ Hb]]]]]].
  exists self'. split; [exact Hre |]. split; [exact Hp |].
  rewrite Hb. reflexivity.
Defined.

(** X18.  The constructor validates before it calls any factory: a
    relation factory that is not callable raises "function must be callable",
    and otherwise a parameter vector whose length differs from the number of
    names raises the parameter-count error; this holds for every domain
    argument and for factories that would themselves raise. *)
Theorem parametrized_validation_precedes_factories :
  forall (B : Backend) (sigma : ParametrizedFunction.cells) (domain pfc : pyobj)
         (names : list string) (parameters : list float),
    (callable pfc = false ->
     fst (ParametrizedFunction.__init__ sigma domain pfc names parameters)
     = Raise (RuntimeError "function must be callable"))
    /\ (callable pfc = true ->
        List.length names <> List.length parameters ->
        fst (ParametrizedFunction.__init__ sigma domain pfc names parameters)
        = Raise (RuntimeError
                   "Number of given parameters does not match the expected number")).
Proof.
  intros B sigma domain pfc names parameters.
  unfold ParametrizedFunction.__init__. split.
  - intros Hc. rewrite Hc. reflexivity.
  - intros Hc Hlen. rewrite Hc. apply Nat.eqb_neq in Hlen. rewrite Hlen.
    reflexivity.
Qed.

Lemma parametrized_validation_precedes_factories_witness :
  fst (ParametrizedFunction.__init__ (B := Reference.backend) []
         (PFactory (fun _ => Raise ValueError))
         (PFactory (fun _ => Raise ValueError))
         ["a"%string; "b"%string] [1%float])
  = Raise (RuntimeError
             "Number of given parameters does not match the expected number").
Proof.
  apply (proj2 (parametrized_validation_precedes_factories Reference.backend []
                  (PFactory (fun _ => Raise ValueError))
                  (PFactory (fun _ => Raise ValueError))
                  ["a"%string; "b"%string] [1%float])).
  - reflexivity.
  - simpl. lia.
Defined.

Lemma dict_get_set : forall (d : ParametrizedFunction.py_dict) (k k' : string)
                            (v : float),
  ParametrizedFunction.dict_get (ParametrizedFunction.dict_set d k v) k'
  = if String.eqb k' k then Some v else ParametrizedFunction.dict_get d k'.
Proof.
  induction d as [| [k0 v0] d IH]; intros k k' v; simpl.
  - reflexivity.
  - destruct (String.eqb k k0) eqn:E; simpl.
    + apply String.eqb_eq in E. subst k0.
      destruct (String.eqb k' k); reflexivity.
    + destruct (String.eqb k' k0) eqn:E0.
      * apply String.eqb_eq in E0. subst k0.
        rewrite String.eqb_sym in E. rewrite E. reflexivity.
      * apply IH.
Qed.

Lemma find_snoc : forall (A : Type) (p : A -> bool) (l : list A) (x : A),
  find p (l ++ [x])
  = match find p l with
    | Some y => Some y
    | None => if p x then Some x else None
    end.
Proof.
  intros A p l x. induction l as [| a l IH]; simpl.
  - reflexivity.
  - destruct (p a); [reflexivity | exact IH].
Qed.

Lemma dict_get_fold : forall (pairs : list (string * float))
                             (d : ParametrizedFunction.py_dict) (k : string),
  ParametrizedFunction.dict_get
    (fold_left (fun d kv => ParametrizedFunction.dict_set d (fst kv) (snd kv)) pairs d) k
  = match find (fun p => String.eqb k (fst p)) (rev pairs) with
    | Some p => Some (snd p)
    | None => ParametrizedFunction.dict_get d k
    end.
Proof.
  induction pairs as [| [k0 v0] pairs IH]; intros d k; simpl.
  - reflexivity.
  - rewrite IH, find_snoc.
    destruct (find (fun p => String.eqb k (fst p)) (rev pairs)); [reflexivity |].
    simpl. rewrite dict_get_set. destruct (String.eqb k k0); reflexivity.
Qed.

(** X19.  In the dictionary of [get_params_dict] a name is bound to the
    parameter paired with its last occurrence in the name list, and a name
    that is not listed is absent. *)
Theorem get_params_dict_last_name_wins :
  forall (self : ParametrizedFunction.t) (k : string),
    ParametrizedFunction.dict_get (ParametrizedFunction.get_params_dict self) k
    = option_map snd
        (find (fun p => String.eqb k (fst p))
           (rev (combine (ParametrizedFunction.get_param_names self)
                   (ParametrizedFunction.get_params self)))).
Proof.
  intros self k.
  unfold ParametrizedFunction.get_params_dict, ParametrizedFunction.dict_of.
  rewrite dict_get_fold.
  unfold ParametrizedFunction.get_param_names, ParametrizedFunction.get_params.
  destruct (find _ _); reflexivity.
Qed.

(** ** [Function.to_function], [Integral] and [Derivative] *)

Lemma to_function_Ok_sorted :
  forall (B : Backend) (G : globals) (x_space : list float) (feval : feval_arg)
         (interpolation : option string) (to_zero : bool) (rel : relation),
    x_space <> [] ->
    to_function G x_space feval interpolation to_zero = Ok rel ->
    exists xs, sorted_abscissas x_space = Ok xs.
Proof.
  intros B G x_space feval interpolation to_zero rel Hne H.
  unfold to_function in H.
  bind_inv H.
  destruct x_space as [| x0 rest]; [contradiction Hne; reflexivity |].
  cbn [List.length Nat.eqb] in H.
  bind_inv H. bind_inv H.
  apply make_interp1d_Ok in E1. destruct E1 as [xr [yr [Hxr _]]].
  eauto.
Qed.

Lemma function_to_function_Ok_inv :
  forall (B : Backend) (G : globals) (domain : list float) (feval : feval_arg)
         (F : Function.t),
    Function.to_function G domain feval = Ok F ->
    exists xs,
      sorted_abscissas domain = Ok xs
      /\ Function.get_domain F = domain
      /\ well_formed F
      /\ (2 <= List.length domain)%nat
      /\ forall x, outside_span xs x = true ->
                   Function.__call__ F (DScalar (SFloat x))
                   = Ok (DScalar (SComplex (Complex 0 0))).
Proof.
  intros B G domain feval F H. unfold Function.to_function in H.
  bind_inv H.
  destruct (init_Ok_inv B _ _ _ H) as [He [_ [Hd Hf]]].
  injection Hd as Hd.
  pose proof (check_answers_need_two_points _ true He) as Hlen.
  pose proof (nonempty_of_two_points _ _ Hlen) as Hne.
  destruct (to_function_Ok_sorted B G domain feval None true a Hne E) as [xs Hxs].
  exists xs. split; [exact Hxs |]. split; [symmetry; exact Hd |].
  split; [unfold well_formed; rewrite <- Hd; exact He |].
  split; [exact Hlen |].
  intros x Hout.
  destruct (to_function_Ok_interpolants B G domain feval None true a xs Hne Hxs E)
    as [kind [yr [yi Hrel]]].
  unfold Function.__call__. unfold Function.get_function in Hf. rewrite Hf.
  cbn [Function.as_relation]. rewrite Hrel.
  apply (interpolated_relation_outside B kind xs yr yi 0 x Hout).
Qed.

(** X20.  A Function built by the class method [Function.to_function] has
    the given grid as domain, at least two points, and evaluates to [0+0j]
    at every point outside the span of the sorted grid. *)
Theorem to_function_instance_vanishes_outside :
  forall (B : Backend) (G : globals) (domain : list float) (feval : feval_arg)
         (F : Function.t),
    Function.to_function G domain feval = Ok F ->
    exists xs,
      sorted_abscissas domain = Ok xs
      /\ Function.get_domain F = domain
      /\ well_formed F
      /\ (2 <= List.length domain)%nat
      /\ forall x, outside_span xs x = true ->
                   Function.__call__ F (DScalar (SFloat x))
                   = Ok (DScalar (SComplex (Complex 0 0))).
Proof.
  intros B G domain feval F H.
  exact (function_to_function_Ok_inv B G domain feval F H).
Qed.

Lemma to_function_instance_vanishes_outside_witness :
  exists F,
    Function.to_function (B := Reference.backend) initial_globals [0; 1; 2]%float
      (FSamples (DArray [1; 2; 4]%float)) = Ok F
    /\ Function.get_domain F = [0; 1; 2]%float.
Proof.
  destruct (Function.to_function (B := Reference.backend) initial_globals
              [0; 1; 2]%float (FSamples (DArray [1; 2; 4]%float)))
    as [F | e] eqn:E; [| vm_compute in E; discriminate E].
  exists F. split; [reflexivity |].
  destruct (to_function_instance_vanishes_outside Reference.backend
              initial_globals [0; 1; 2]%float _ F E) as [xs [_ [Hd _]]].
  exact Hd.
Defined.

(** X21.  [Integral.to_function] checks the samples before any quadrature:
    samples that are not one per domain point raise "Cannot evaluate, unknown
    type".  An Integral that is built lives on the given domain and, being
    reconstructed with zero fill, evaluates to [0+0j] outside its span. *)
Theorem integral_to_function_outcomes :
  forall (B : Backend) (Q : Calculus) (G : globals) (domain : list float)
         (C : scalar),
    (forall d, data_len d <> Some (List.length domain) ->
               Integral.to_function G domain (FSamples d) C
               = Raise (RuntimeError "Cannot evaluate, unknown type"))
    /\ (forall feval F,
          Integral.to_function G domain feval C = Ok F ->
          exists xs,
            sorted_abscissas domain = Ok xs
            /\ Function.get_domain F = domain
            /\ forall x, outside_span xs x = true ->
                         Function.__call__ F (DScalar (SFloat x))
                         = Ok (DScalar (SComplex (Complex 0 0)))).
Proof.
  intros B Q G domain C. split.
  - intros d Hd. unfold Integral.to_function.
    rewrite (evaluate_wrong_count B domain d Hd). reflexivity.
  - intros feval F H. unfold Integral.to_function in H.
    bind_inv H. bind_inv H. bind_inv H.
    destruct (function_to_function_Ok_inv B G domain _ F H)
      as [xs [Hxs [Hd [_ [_ Hout]]]]].
    exists xs. repeat split; assumption.
Qed.

Lemma integral_to_function_outcomes_witness :
  Integral.to_function (B := ReferenceCalculus.backend) (Q := ReferenceCalculus.calculus)
    initial_globals [0; 1; 2]%float (FSamples (DArray [1; 2]%float)) (SInt 0)
  = Raise (RuntimeError "Cannot evaluate, unknown type").
Proof.
  apply (proj1 (integral_to_function_outcomes ReferenceCalculus.backend
                  ReferenceCalculus.calculus initial_globals [0; 1; 2]%float
                  (SInt 0))).
  discriminate.
Defined.

(** X22.  [Integral.from_function] with a lower limit [x0]: the integration
    constant is not used, and whenever the integral [F] (with constant 0)
    can be built, the result is a Function, never [None] and never an
    exception: it lives on the domain of [fun] and computes [F(x) - F(x0)],
    where [F(x0)] is the complex value of [F] at [x0]. *)
Theorem integral_from_a_lower_limit :
  forall (B : Backend) (Q : Calculus) (G : globals) (fn : Function.t)
         (x0 : float) (C : scalar),
    Integral.from_function G fn (Some x0) C
    = Integral.from_function G fn (Some x0) (SInt 0)
    /\ forall F,
         Integral.to_function G (Function.get_domain fn)
           (FCallable (Function.get_function fn)) (SInt 0) = Ok F ->
         exists (c : complex) (h : Function.t),
           Function.__call__ F (DScalar (SFloat x0)) = Ok (DScalar (SComplex c))
           /\ Integral.from_function G fn (Some x0) C = Ok (Some h)
           /\ Function.get_domain h = Function.get_domain fn
           /\ forall x, Function.__call__ h x
                        = (let* a := Function.__call__ F x in
                           py_binop Sub a (DScalar (SComplex c))).
Proof.
  intros B Q G fn x0 C. split; [reflexivity |].
  intros F HF. unfold Integral.from_function. rewrite HF. cbn [bind].
  unfold Integral.to_function in HF.
  bind_inv HF. bind_inv HF. bind_inv HF.
  unfold Function.to_function in HF. bind_inv HF.
  destruct (init_Ok_inv B _ _ _ HF) as [He [_ [Hd Hf]]].
  injection Hd as Hd.
  pose proof (nonempty_of_two_points _ _ (check_answers_need_two_points _ true He))
    as Hne.
  destruct (to_function_Ok_sorted B G _ _ None true a2 Hne E2) as [xs Hxs].
  destruct (to_function_Ok_interpolants B G _ _ None true a2 xs Hne Hxs E2)
    as [kind [yr [yi Hrel]]].
  assert (Hwf : well_formed F) by (unfold well_formed; rewrite <- Hd; exact He).
  assert (Hcall : exists c,
             Function.__call__ F (DScalar (SFloat x0))
             = Ok (DScalar (SComplex c))).
  { unfold Function.__call__. unfold Function.get_function in Hf. rewrite Hf.
    cbn [Function.as_relation]. rewrite Hrel. cbn [interpolated_relation].
    rewrite !interp1d_at_value. cbn [bind]. eauto. }
  destruct Hcall as [c Hc]. rewrite Hc. cbn [bind].
  destruct (operator_number_operand B Sub F (SComplex c) Hwf eq_refl)
    as [h [Hop [Hdom Hval]]].
  exists c, h. split; [reflexivity |].
  split; [exact Hop |]. split; [rewrite Hdom; symmetry; exact Hd |].
  exact Hval.
Qed.

Lemma integral_from_a_lower_limit_witness :
  exists h,
    Integral.from_function (B := ReferenceCalculus.backend)
      (Q := ReferenceCalculus.calculus) initial_globals
      (Function.Build [0; 1; 2]%float identity_relation) (Some 1%float) (SInt 7)
    = Ok (Some h)
    /\ Function.get_domain h = [0; 1; 2]%float.
Proof.
  destruct (Integral.to_function (B := ReferenceCalculus.backend)
              (Q := ReferenceCalculus.calculus) initial_globals
              [0; 1; 2]%float (FCallable identity_relation) (SInt 0))
    as [F | e] eqn:E; [| vm_compute in E; discriminate E].
  destruct (proj2 (integral_from_a_lower_limit ReferenceCalculus.backend
                     ReferenceCalculus.calculus initial_globals
                     (Function.Build [0; 1; 2]%float identity_relation)
                     1%float (SInt 7)) F E)
    as [c [h [_ [Hfrom [Hdom _]]]]].
  exists h. split; [exact Hfrom | exact Hdom].
Defined.

(** X23.  [Derivative.from_function] samples the relation point by point, in
    domain order: when the relation returns floats [g x] on the domain, the
    Derivative is the reconstruction, on the same domain, of the gradient of
    the array of those floats with step [get_dx]; any Derivative that is
    built evaluates to [0+0j] outside the span of its domain. *)
Theorem derivative_from_function_samples_pointwise :
  forall (B : Backend) (Q : Calculus) (G : globals) (fn : Function.t),
    (forall g : float -> float,
       (forall x, In x (Function.get_domain fn) ->
                  Function.__call__ fn (DScalar (SFloat x))
                  = Ok (DScalar (SFloat (g x)))) ->
       Derivative.from_function G fn
       = (let* fprime := gradient (DArray (map g (Function.get_domain fn)))
                           (Function.get_dx (Function.get_domain fn)) in
          Function.to_function G (Function.get_domain fn) (FSamples fprime)))
    /\ (forall F,
          Derivative.from_function G fn = Ok F ->
          exists xs,
            sorted_abscissas (Function.get_domain fn) = Ok xs
            /\ Function.get_domain F = Function.get_domain fn
            /\ forall x, outside_span xs x = true ->
                         Function.__call__ F (DScalar (SFloat x))
                         = Ok (DScalar (SComplex (Complex 0 0)))).
Proof.
  intros B Q G fn. split.
  - intros g Hg. unfold Derivative.from_function, Derivative.to_function.
    rewrite (evaluate_float_callable B _ (Function.get_function fn) g Hg).
    reflexivity.
  - intros F H. unfold Derivative.from_function, Derivative.to_function in H.
    bind_inv H. bind_inv H.
    destruct (function_to_function_Ok_inv B G _ _ F H)
      as [xs [Hxs [Hd [_ [_ Hout]]]]].
    exists xs. repeat split; assumption.
Qed.

Lemma derivative_from_function_samples_pointwise_witness :
  exists F,
    Derivative.from_function (B := ReferenceCalculus.backend)
      (Q := ReferenceCalculus.calculus) initial_globals
      (Function.Build [0; 1; 2]%float identity_relation) = Ok F
    /\ Function.get_domain F = [0; 1; 2]%float.
Proof.
  destruct (Derivative.from_function (B := ReferenceCalculus.backend)
              (Q := ReferenceCalculus.calculus) initial_globals
              (Function.Build [0; 1; 2]%float identity_relation))
    as [F | e] eqn:E; [| vm_compute in E; discriminate E].
  exists F. split; [reflexivity |].
  destruct (proj2 (derivative_from_function_samples_pointwise ReferenceCalculus.backend
                     ReferenceCalculus.calculus initial_globals
                     (Function.Build [0; 1; 2]%float identity_relation)) F E)
    as [xs [_ [Hd _]]].
  exact Hd.
Defined.

(** ** [max], [min], [argmax], [argmin] *)

Lemma reduce_nan : forall (keep : float -> float -> bool) (ys : list float)
                          (best : float),
  (forall a b, is_nan a = true -> keep a b = true) ->
  is_nan best = true -> reduce keep best ys = best.
Proof.
  intros keep ys. induction ys as [| y rest IH]; intros best Hk Hn; simpl.
  - reflexivity.
  - rewrite (Hk best y Hn). apply IH; assumption.
Qed.

(** The index scan and the value reduction walk together: the index found
    is in range and holds the reduced value. *)
Lemma arg_scan_reduce :
  forall (keep : float -> float -> bool) (ys pre : list float) (best : float)
         (bi : nat),
    (forall a b, is_nan a = true -> keep a b = true) ->
    nth_error (pre ++ ys) bi = Some best ->
    (bi < List.length pre)%nat ->
    nth_error (pre ++ ys) (arg_scan keep best bi (List.length pre) ys)
    = Some (reduce keep best ys)
    /\ (arg_scan keep best bi (List.length pre) ys < List.length (pre ++ ys))%nat.
Proof.
  intros keep ys. induction ys as [| y rest IH]; intros pre best bi Hk Hb Hlt.
  - simpl. split; [exact Hb |]. rewrite length_app. simpl. lia.
  - cbn [arg_scan reduce].
    destruct (is_nan best) eqn:En.
    + rewrite (Hk best y En), (reduce_nan keep rest best Hk En).
      split; [exact Hb |]. rewrite length_app. simpl. lia.
    + assert (Hpre : pre ++ y :: rest = (pre ++ [y]) ++ rest)
        by (rewrite <- app_assoc; reflexivity).
      assert (Hlen : S (List.length pre) = List.length (pre ++ [y]))
        by (rewrite length_app; simpl; lia).
      rewrite Hpre, Hlen.
      destruct (keep best y).
      * apply IH; [exact Hk | rewrite <- Hpre; exact Hb | rewrite <- Hlen; lia].
      * apply IH; [exact Hk | | rewrite <- Hlen; lia].
        rewrite <- Hpre. rewrite nth_error_app2 by lia.
        rewrite Nat.sub_diag. reflexivity.
Qed.

Lemma keep_max_nan : forall a b, is_nan a = true -> keep_max a b = true.
Proof. intros a b H. unfold keep_max. rewrite H. apply orb_true_r. Qed.

Lemma keep_min_nan : forall a b, is_nan a = true -> keep_min a b = true.
Proof. intros a b H. unfold keep_min. rewrite H. apply orb_true_r. Qed.

Lemma arg_is_where_the_value_is :
  forall (B : Backend) (R : Reductions) (keep : float -> float -> bool)
         (o1 : data -> result data) (o2 : data -> result nat)
         (F : Function.t) (y : float) (ys : list float),
    (forall a b, is_nan a = true -> keep a b = true) ->
    Function.eval F = Ok (DArray (y :: ys)) ->
    (List.length (y :: ys) <= List.length (Function.get_domain F))%nat ->
    exists (m p : float) (i : nat),
      (let* v := Function.eval F in np_reduce keep o1 v) = Ok (DScalar (SFloat m))
      /\ (let* v := Function.eval F in
          let* i := np_arg keep o2 v in
          np_index (Function.get_domain F) i) = Ok p
      /\ nth_error (Function.get_domain F) i = Some p
      /\ nth_error (y :: ys) i = Some m.
Proof.
  intros B R keep o1 o2 F y ys Hk He Hlen. rewrite He. cbn [bind np_reduce np_arg].
  destruct (arg_scan_reduce keep ys [y] y 0 Hk eq_refl ltac:(simpl; lia))
    as [Hnth Hrange].
  cbn [List.length app] in Hnth, Hrange.
  set (i := arg_scan keep y 0 1 ys) in *.
  destruct (nth_error (Function.get_domain F) i) as [p |] eqn:Ep.
  - exists (reduce keep y ys), p, i. unfold np_index. fold i. rewrite Ep.
    split; [reflexivity |]. split; [reflexivity |].
    split; [reflexivity | exact Hnth].
  - apply nth_error_None in Ep. simpl in Hlen. lia.
Qed.

(** X24.  When [eval()] returns a non-empty real array with at most one
    sample per domain point, [argmax()] returns the domain point whose sample
    is the value [max()] returns, and likewise [argmin()] and [min()]; when
    [eval()] returns an empty array all four raise [ValueError]. *)
Theorem extremum_is_attained_at_its_argument :
  forall (B : Backend) (R : Reductions) (F : Function.t),
    (forall y ys,
       Function.eval F = Ok (DArray (y :: ys)) ->
       (List.length (y :: ys) <= List.length (Function.get_domain F))%nat ->
       (exists m p i,
          Function.max F = Ok (DScalar (SFloat m))
          /\ Function.argmax F = Ok p
          /\ nth_error (Function.get_domain F) i = Some p
          /\ nth_error (y :: ys) i = Some m)
       /\ (exists m p i,
             Function.min F = Ok (DScalar (SFloat m))
             /\ Function.argmin F = Ok p
             /\ nth_error (Function.get_domain F) i = Some p
             /\ nth_error (y :: ys) i = Some m))
    /\ (Function.eval F = Ok (DArray []) ->
        Function.max F = Raise ValueError
        /\ Function.min F = Raise ValueError
        /\ Function.argmax F = Raise ValueError
        /\ Function.argmin F = Raise ValueError).
Proof.
  intros B R F. split.
  - intros y ys He Hlen. split.
    + apply (arg_is_where_the_value_is B R keep_max np_max_other np_argmax_other
               F y ys keep_max_nan He Hlen).
    + apply (arg_is_where_the_value_is B R keep_min np_min_other np_argmin_other
               F y ys keep_min_nan He Hlen).
  - intros He.
    unfold Function.max, Function.min, Function.argmax, Function.argmin.
    rewrite He. repeat split.
Qed.

Lemma extremum_is_attained_at_its_argument_witness :
  Function.max (R := ReferenceCalculus.reductions)
    (Function.Build [0; 1; 2; 3]%float
       (fun x => Reference.binop_data Mul x (DScalar (SFloat (-1)))))
  = Ok (DScalar (SFloat (-0)))
  /\ Function.argmax (R := ReferenceCalculus.reductions)
       (Function.Build [0; 1; 2; 3]%float
          (fun x => Reference.binop_data Mul x (DScalar (SFloat (-1)))))
     = Ok 0%float.
Proof.
  destruct (proj1 (extremum_is_attained_at_its_argument Reference.backend
                     ReferenceCalculus.reductions
                     (Function.Build [0; 1; 2; 3]%float
                        (fun x => Reference.binop_data Mul x
                                    (DScalar (SFloat (-1))))))
              (-0)%float [-1; -2; -3]%float
              ltac:(vm_compute; reflexivity) ltac:(simpl; lia))
    as [[m [p [i [Hmax [Harg _]]]]] _].
  split; vm_compute; reflexivity.
Defined.

(** ** Further examples *)

Lemma shift_is_a_translation_witness :
  Function.shift (B := Reference.backend)
    (Function.Build [0; 1; 2]%float identity_relation) 10 true
  = Ok (Function.Build [10; 11; 12]%float
          (fun x =>
             let* y := Reference.binop_data Sub x (DScalar (SFloat 10)) in
             identity_relation y)).
Proof.
  apply (proj2 (shift_is_a_translation Reference.backend
                  (Function.Build [0; 1; 2]%float identity_relation) 10)).
  split; vm_compute; reflexivity.
Defined.

Lemma no_function_on_short_domains_witness :
  exists e,
    Function.to_function (B := Reference.backend) initial_globals [5%float]
      (FSamples (DArray [1%float])) = Raise e.
Proof.
  apply (proj1 (proj2 (proj2 (no_function_on_short_domains Reference.backend
                                initial_globals)))).
  simpl. lia.
Defined.
